(** * Calendar: selection engine and scroll synchronisation

    A shallow embedding of [packages/core/src/calendar/calendar.tsx]
    (taroify).  The component's closures ([limitDateRange],
    [getInitialDate], [months], [getDisabledDate], [onDayClick],
    [onScroll], [scrollToDate], [scrollIntoView]) become functions over
    explicit props, explicit collaborator measurements and an explicit
    component state; a thrown [TypeError] becomes the [Throw] result. *)

From Stdlib Require Import ZArith List Bool Lia String DecimalString.
Import ListNotations.
Local Open Scope Z_scope.

(* ------------------------------------------------------------------ *)
(** ** Results of code that may throw *)

Inductive Res (A : Type) : Type :=
| Ok (a : A)
| Throw.
Arguments Ok {A} a.
Arguments Throw {A}.

Definition bind {A B : Type} (r : Res A) (k : A -> Res B) : Res B :=
  match r with
  | Ok a => k a
  | Throw => Throw
  end.

Notation "x <- e ;; k" := (bind e (fun x => k))
  (at level 61, e at next level, right associativity).

Fixpoint mapM {A B : Type} (f : A -> Res B) (l : list A) : Res (list B) :=
  match l with
  | [] => Ok []
  | a :: l' => b <- f a ;; bs <- mapM f l' ;; Ok (b :: bs)
  end.

(* ------------------------------------------------------------------ *)
(** ** Dates

    A JavaScript [Date] holding a valid local calendar date: the fields
    read by [getFullYear], [getMonth] (0 to 11) and [getDate] (1 to the
    length of the month), and the time of day in milliseconds, which the
    calendar copies around but never compares. *)

Record Date : Type := mkDate {
  getFullYear : Z;
  getMonth : Z;
  getDate : Z;
  timeOfDay : Z
}.

Definition isLeapYear (y : Z) : bool :=
  ((y mod 4 =? 0) && negb (y mod 100 =? 0)) || (y mod 400 =? 0).

Definition daysInMonth (y m : Z) : Z :=
  if m =? 1 then (if isLeapYear y then 29 else 28)
  else if (m =? 3) || (m =? 5) || (m =? 8) || (m =? 10) then 30
  else 31.

Definition validDate (d : Date) : bool :=
  (0 <=? getMonth d) && (getMonth d <=? 11) &&
  (1 <=? getDate d) && (getDate d <=? daysInMonth (getFullYear d) (getMonth d)).

(** Modelled from the spec: [compareYearMonth] of calendar.shared, which is
    not among the sources.  It "compares only year+month, ignoring day" and
    answers -1, 0 or 1. *)
Definition compareYearMonth (date1 date2 : Date) : Z :=
  if getFullYear date1 =? getFullYear date2 then
    if getMonth date1 =? getMonth date2 then 0
    else if getMonth date1 >? getMonth date2 then 1 else -1
  else if getFullYear date1 >? getFullYear date2 then 1 else -1.

(** Modelled from the spec: [compareDate] of calendar.shared, the comparison
    "by day" with answers -1, 0 or 1: year and month first, then the day of
    the month; the time of day plays no part. *)
Definition compareDate (day1 day2 : Date) : Z :=
  let compareMonthResult := compareYearMonth day1 day2 in
  if compareMonthResult =? 0 then
    if getDate day1 =? getDate day2 then 0
    else if getDate day1 >? getDate day2 then 1 else -1
  else compareMonthResult.

(** Modelled from the spec: [createNextDay] of calendar.shared, "add one
    day": the following calendar day, the time of day kept. *)
Definition createNextDay (d : Date) : Date :=
  if getDate d <? daysInMonth (getFullYear d) (getMonth d) then
    mkDate (getFullYear d) (getMonth d) (getDate d + 1) (timeOfDay d)
  else if getMonth d <? 11 then
    mkDate (getFullYear d) (getMonth d + 1) 1 (timeOfDay d)
  else
    mkDate (getFullYear d + 1) 0 1 (timeOfDay d).

(** Modelled from the spec: [createPreviousDay] of calendar.shared,
    "subtract one day": the preceding calendar day, the time of day kept. *)
Definition createPreviousDay (d : Date) : Date :=
  if 1 <? getDate d then
    mkDate (getFullYear d) (getMonth d) (getDate d - 1) (timeOfDay d)
  else if 0 <? getMonth d then
    mkDate (getFullYear d) (getMonth d - 1)
           (daysInMonth (getFullYear d) (getMonth d - 1)) (timeOfDay d)
  else
    mkDate (getFullYear d - 1) 11 31 (timeOfDay d).

(** [Date.prototype.setDate]: the day of the month is counted from the
    first day of the date's month, running over into the neighbouring
    months when it leaves the month. *)
Definition setDate (d : Date) (n : Z) : Date :=
  let first := mkDate (getFullYear d) (getMonth d) 1 (timeOfDay d) in
  if 1 <=? n then Nat.iter (Z.to_nat (n - 1)) createNextDay first
  else Nat.iter (Z.to_nat (1 - n)) createPreviousDay first.

(** [Date.prototype.setMonth]: the month index is reduced into 0..11 with
    the year carried, and a day of the month the new month does not have
    runs over into the month after. *)
Definition setMonth (d : Date) (m : Z) : Date :=
  let first := mkDate (getFullYear d + m / 12) (m mod 12) 1 (timeOfDay d) in
  if 1 <=? getDate d then Nat.iter (Z.to_nat (getDate d - 1)) createNextDay first
  else Nat.iter (Z.to_nat (1 - getDate d)) createPreviousDay first.

(** The position of a date's month on the month line. *)
Definition monthIndex (d : Date) : Z := 12 * getFullYear d + getMonth d.

(* ------------------------------------------------------------------ *)
(** ** The month sequence ([months], lines 192-204) *)

(** The [do ... while] loop: the body runs, then the test; [fuel] bounds
    the number of rounds and [None] reports that it ran out. *)
Fixpoint months_loop (maxValue : Date) (fuel : nat) (cursor : Date)
    (months : list Date) : option (list Date) :=
  match fuel with
  | O => None
  | S fuel' =>
      let months := months ++ [cursor] in
      let cursor := setMonth cursor (getMonth cursor + 1) in
      if negb (compareYearMonth cursor maxValue =? 1)
      then months_loop maxValue fuel' cursor months
      else Some months
  end.

Definition months (minValue maxValue : Date) : option (list Date) :=
  let cursor := setDate minValue 1 in
  months_loop maxValue
    (S (Z.to_nat (monthIndex maxValue - monthIndex minValue))) cursor [].

(* ------------------------------------------------------------------ *)
(** ** Values, props, collaborators and component state *)

Inductive CalendarType : Type := single | multiple | range.

(** [CalendarValueType] as it arrives from loosely typed props: [null],
    [undefined], one [Date], or an array whose entries may be null-ish. *)
Inductive CalendarValueType : Type :=
| VNull
| VUndefined
| VDate (d : Date)
| VArray (l : list (option Date)).

(** JavaScript truthiness of a value: objects (dates, arrays, the empty
    array too) are truthy. *)
Definition truthy (v : CalendarValueType) : bool :=
  match v with
  | VNull | VUndefined => false
  | VDate _ | VArray _ => true
  end.

(** [arr[i]]: [undefined] past the end. *)
Definition entry (arr : list (option Date)) (i : nat) : option Date :=
  match nth_error arr i with
  | Some o => o
  | None => None
  end.

(** [x || now] on a date-or-null-ish [x]. *)
Definition orElse (x : option Date) (now : Date) : Date :=
  match x with
  | Some d => d
  | None => now
  end.

(** A rendered subtitle: text, or nothing. *)
Inductive ReactNode : Type :=
| NodeUndefined
| NodeText (s : string).

Record CalendarDayObject : Type := mkDay {
  value : option Date
}.

Record CalendarMonthInstance : Type := mkMonth {
  getHeight : Z;
  getValue : Date;
  getScrollTop : ReactNode -> Z;
  disabledDays : list CalendarDayObject
}.

(** [monthRefs]: one ref per rendered month, holding its [current]
    instance once the month is mounted. *)
Definition MonthRefs : Type := list (option CalendarMonthInstance).

(** What the viewport answers: [bodyRef.current] being set, the bounding
    rectangle and the scroll offset of the scrollable body. *)
Record Body : Type := mkBody {
  bodyMounted : bool;
  rectTop : Z;
  rectHeight : Z;
  scrollTop : Z
}.

Inductive SubtitleProp : Type :=
| SubBool (b : bool)
| SubFunction (f : Date -> ReactNode)
| SubNode (n : ReactNode).

Record CalendarProps : Type := mkProps {
  type : CalendarType;
  subtitleProp : SubtitleProp;
  currentValue : CalendarValueType;
  minValue : Date;
  maxValue : Date;
  readonly : bool
}.

(** The calls the component makes on its state setters and callbacks. *)
Inductive Effect : Type :=
| SetSubtitle (s : ReactNode)
| SetBodyScrollTop (n : Z)
| OnChange (v : CalendarValueType).

(** Component state; [events] records the setter and callback calls, the
    latest first. *)
Record State : Type := mkState {
  subtitle : ReactNode;
  bodyScrollTop : Z;
  bodyScrollTopRef : Z;
  changeValueRef : CalendarValueType;
  events : list Effect
}.

Definition setSubtitle (s : ReactNode) (st : State) : State :=
  mkState s (bodyScrollTop st) (bodyScrollTopRef st) (changeValueRef st)
          (SetSubtitle s :: events st).

Definition setBodyScrollTop (n : Z) (st : State) : State :=
  mkState (subtitle st) n (bodyScrollTopRef st) (changeValueRef st)
          (SetBodyScrollTop n :: events st).

(** [change] (lines 223-229). *)
Definition change (dateValue : CalendarValueType) (st : State) : State :=
  mkState (subtitle st) (bodyScrollTop st) (bodyScrollTopRef st) dateValue
          (OnChange dateValue :: events st).

(* ------------------------------------------------------------------ *)
(** ** Subtitles (lines 42-65) *)

Definition decimal (z : Z) : string := NilZero.string_of_int (Z.to_int z).

Definition defaultSubtitleRender (date : Date) : ReactNode :=
  NodeText (decimal (getFullYear date) ++ "年"
            ++ decimal (getMonth date + 1) ++ "月")%string.

(** [useSubtitleRender], once its effect has stored the render. *)
Definition useSubtitleRender (subtitle : SubtitleProp) : Date -> ReactNode :=
  match subtitle with
  | SubBool true => defaultSubtitleRender
  | SubBool false => fun _ => NodeUndefined
  | SubFunction f => f
  | SubNode n => fun _ => n
  end.

Definition subtitleRender (p : CalendarProps) : Date -> ReactNode :=
  useSubtitleRender (subtitleProp p).

(* ------------------------------------------------------------------ *)
(** ** Initial-value normalisation (lines 147-190) *)

Definition limitDateRange (date minDate maxDate : Date) : Date :=
  if compareDate date minDate =? -1 then minDate
  else if compareDate date maxDate =? 1 then maxDate
  else date.

(** [defaultDate.map((date) => limitDateRange(date))]: on a null-ish entry
    [compareDate] reads a property of [null] or [undefined] and throws. *)
Definition limitEntry (minDate maxDate : Date) (entry : option Date) : Res Date :=
  match entry with
  | Some date => Ok (limitDateRange date minDate maxDate)
  | None => Throw
  end.

(** [now] is what [createToday()] answers. *)
Definition getInitialDate (p : CalendarProps) (now : Date)
    (defaultDate : CalendarValueType) : Res CalendarValueType :=
  match defaultDate with
  | VNull => Ok VNull
  | _ =>
    match type p with
    | range =>
        let defaultDate :=
          match defaultDate with VArray l => l | _ => [] end in
        let start := limitDateRange (orElse (entry defaultDate 0) now)
                       (minValue p) (createPreviousDay (maxValue p)) in
        let end_ := limitDateRange (orElse (entry defaultDate 1) now)
                      (createNextDay (minValue p)) (maxValue p) in
        Ok (VArray [Some start; Some end_])
    | multiple =>
        match defaultDate with
        | VArray l =>
            ds <- mapM (limitEntry (minValue p) (maxValue p)) l ;;
            Ok (VArray (map Some ds))
        | _ => Ok (VArray [Some (limitDateRange now (minValue p) (maxValue p))])
        end
    | single =>
        let defaultDate :=
          match defaultDate with VDate d => d | _ => now end in
        Ok (VDate (limitDateRange defaultDate (minValue p) (maxValue p)))
    end
  end.

(* ------------------------------------------------------------------ *)
(** ** The selection engine (lines 206-282) *)

(** [disabledDays.find(...)?.value]: the first entry, in array order, whose
    date lies strictly between [startDay] and [date].  The test reads
    [day.value!]; on an entry without a date [compareDate] throws. *)
Fixpoint getDisabledDate (disabledDays : list CalendarDayObject)
    (startDay date : Date) : Res (option Date) :=
  match disabledDays with
  | [] => Ok None
  | day :: rest =>
      match value day with
      | None => Throw
      | Some v =>
          if (compareDate startDay v =? -1) && (compareDate v date =? -1)
          then Ok (Some v)
          else getDisabledDate rest startDay date
      end
  end.

(** [ref.current?.disabledDays ?? []], month after month. *)
Definition getDisabledDays (monthRefs : MonthRefs) : list CalendarDayObject :=
  fold_left
    (fun arr ref =>
       arr ++ match ref with
              | Some current => disabledDays current
              | None => []
              end)
    monthRefs [].

(** [_.filter(dates, (dateItem) => compareDate(dateItem, date) !== 0)]. *)
Fixpoint filterOtherDays (dates : list (option Date)) (date : Date)
    : Res (list (option Date)) :=
  match dates with
  | [] => Ok []
  | dateItem :: rest =>
      match dateItem with
      | None => Throw
      | Some d =>
          newDates <- filterOtherDays rest date ;;
          Ok (if negb (compareDate d date =? 0)
              then dateItem :: newDates else newDates)
      end
  end.

Definition onDayClick (p : CalendarProps) (monthRefs : MonthRefs)
    (day : CalendarDayObject) (st : State) : Res State :=
  match value day with
  | None => Ok st
  | Some date =>
    if readonly p then Ok st else
    match type p with
    | range =>
        let disabledDays := getDisabledDays monthRefs in
        match currentValue p with
        | VNull | VUndefined => Ok (change (VArray [Some date]) st)
        | VDate _ => Throw  (* a Date does not destructure as an array *)
        | VArray l =>
            match entry l 0, entry l 1 with
            | Some startDay, None =>
                let compareToStart := compareDate date startDay in
                if compareToStart =? 1 then
                  disabledDay <- getDisabledDate disabledDays startDay date ;;
                  match disabledDay with
                  | Some disabledDay =>
                      Ok (change (VArray [Some startDay;
                                          Some (createPreviousDay disabledDay)]) st)
                  | None => Ok (change (VArray [Some startDay; Some date]) st)
                  end
                else if compareToStart =? -1 then
                  Ok (change (VArray [Some date]) st)
                else
                  Ok (change (VArray [Some date; Some date]) st)
            | _, _ => Ok (change (VArray [Some date]) st)
            end
        end
    | multiple =>
        match currentValue p with
        | VNull | VUndefined => Ok (change (VArray [Some date]) st)
        | VDate _ => Throw  (* [...dates, date] on a Date: not iterable *)
        | VArray dates =>
            newDates <- filterOtherDays dates date ;;
            if negb (Nat.eqb (List.length newDates) (List.length dates))
            then Ok (change (VArray newDates) st)
            else Ok (change (VArray (dates ++ [Some date])) st)
        end
    | single => Ok (change (VDate date) st)
    end
  end.

(* ------------------------------------------------------------------ *)
(** ** Scroll synchronisation (lines 284-366) *)

(** [monthRefs[index].current], throwing when the ref or its instance is
    missing and a member of the instance is read. *)
Definition monthAt (monthRefs : MonthRefs) (i : nat) : Res CalendarMonthInstance :=
  match nth_error monthRefs i with
  | Some (Some current) => Ok current
  | _ => Throw
  end.

(** The [for] loop of [onScroll]: [i] is the index of the head of
    [heights], [height] the running top; the answer is the index at which
    the loop breaks. *)
Fixpoint onScroll_loop (top bottom : Z) (heights : list Z) (i : nat)
    (height : Z) : option nat :=
  match heights with
  | [] => None
  | h :: rest =>
      let visible := (height <=? bottom) && (height + h >=? top) in
      if visible then Some i
      else onScroll_loop top bottom rest (S i) (height + h)
  end.

Definition setMonthSubtitle (currentMonth : option CalendarMonthInstance)
    (subtitle : ReactNode) (st : State) : State :=
  match currentMonth with
  | Some _ => setSubtitle subtitle st
  | None => st
  end.

(** [months.map((item, index) => monthRefs[index].current.getHeight())]. *)
Definition monthHeights (months : list Date) (monthRefs : MonthRefs)
    : Res (list Z) :=
  mapM (fun i => m <- monthAt monthRefs i ;; Ok (getHeight m))
       (seq 0 (List.length months)).

(** [onScroll] (lines 284-312).  Offsets and heights are taken as
    integers.  The code adds and compares them as doubles, which is this
    integer arithmetic as long as the values and their sums are safe
    integers. *)
Definition onScroll (p : CalendarProps) (months : list Date)
    (monthRefs : MonthRefs) (body : Body) (st : State) : Res State :=
  let top := scrollTop body in
  let bodyHeight := rectHeight body in
  let bottom := top + bodyHeight in
  heights <- monthHeights months monthRefs ;;
  let heightSum := fold_left (fun a b => a + b) heights 0 in
  if (bottom >? heightSum) && (top >? 0) then Ok st
  else
    match onScroll_loop top bottom heights 0 0 with
    | Some i =>
        currentMonth <- monthAt monthRefs i ;;
        let subtitle := subtitleRender p (getValue currentMonth) in
        Ok (setMonthSubtitle (Some currentMonth) subtitle st)
    | None => Ok st
    end.

(** [months.some(...)] of [scrollToDate], from the month at [index] on; the
    measurements asked for in [nextTick] are those of [body]. *)
Fixpoint scrollToDate_some (p : CalendarProps) (months : list Date)
    (index : nat) (monthRefs : MonthRefs) (body : Body)
    (targetDate : option Date) (st : State) : Res State :=
  match months with
  | [] => Ok st
  | month :: rest =>
      match targetDate with
      | None => Throw  (* compareYearMonth reads a property of undefined *)
      | Some target =>
          if compareYearMonth month target =? 0 then
            currentMonth <- monthAt monthRefs index ;;
            let subtitle := subtitleRender p (getValue currentMonth) in
            let st := setMonthSubtitle (Some currentMonth) subtitle st in
            if bodyMounted body then
              let bodyTop := rectTop body in
              let bodyScrollTop := scrollTop body in
              let monthScrollTop := getScrollTop currentMonth subtitle in
              let newBodyScrollTop := monthScrollTop - bodyTop + bodyScrollTop in
              if negb (bodyScrollTopRef st =? newBodyScrollTop) then
                Ok (setBodyScrollTop newBodyScrollTop
                      (setBodyScrollTop (bodyScrollTopRef st) st))
              else
                Ok (setBodyScrollTop newBodyScrollTop st)
            else Ok st
          else scrollToDate_some p rest (S index) monthRefs body targetDate st
      end
  end.

Definition scrollToDate (p : CalendarProps) (months : list Date)
    (monthRefs : MonthRefs) (body : Body) (targetDate : option Date)
    (st : State) : Res State :=
  scrollToDate_some p months 0 monthRefs body targetDate st.

(** [scrollIntoView] (lines 352-366), over the [type] (in [p]) and the
    month list that the callback holds.  The callback is memoised with an
    empty dependency list, so these are the ones of the first render; the
    month refs are those of the months mounted now. *)
Definition scrollIntoView (p : CalendarProps) (months : list Date)
    (monthRefs : MonthRefs) (body : Body) (newValue : CalendarValueType)
    (st : State) : Res State :=
  if truthy newValue then
    let targetDate :=
      match type p, newValue with
      | single, VDate d => Some d
      | _, VArray l => entry l 0
      | _, _ => None
      end in
    scrollToDate p months monthRefs body targetDate st
  else onScroll p months monthRefs body st.

(* ------------------------------------------------------------------ *)
(** ** Vocabulary of the statements *)

(** Strictly earlier day, field by field. *)
Definition dayBefore (a b : Date) : Prop :=
  getFullYear a < getFullYear b \/
  (getFullYear a = getFullYear b /\
   (getMonth a < getMonth b \/
    (getMonth a = getMonth b /\ getDate a < getDate b))).

Definition sameDay (a b : Date) : Prop :=
  getFullYear a = getFullYear b /\ getMonth a = getMonth b /\
  getDate a = getDate b.

Definition sameDayb (a b : Date) : bool :=
  (getFullYear a =? getFullYear b) && (getMonth a =? getMonth b) &&
  (getDate a =? getDate b).

(** [d] lies strictly between [startDay] and [date], as [getDisabledDate]
    tests it. *)
Definition strictlyBetween (startDay date d : Date) : Prop :=
  compareDate startDay d = -1 /\ compareDate d date = -1.

(** [d] lies in the closed interval from [minDate] to [maxDate], by day. *)
Definition inRange (minDate maxDate d : Date) : Prop :=
  compareDate d minDate <> -1 /\ compareDate d maxDate <> 1.

(** Every date component of a selection value is a date within the
    bounds; [null] and [undefined] are no selection values. *)
Definition withinBounds (minDate maxDate : Date) (v : CalendarValueType) : Prop :=
  match v with
  | VDate d => inRange minDate maxDate d
  | VArray l =>
      Forall (fun o => exists d, o = Some d /\ inRange minDate maxDate d) l
  | VNull | VUndefined => False
  end.

(** [b] is the month after [a]. *)
Definition monthSucc (a b : Date) : Prop :=
  (getMonth a < 11 /\ getFullYear b = getFullYear a /\ getMonth b = getMonth a + 1)
  \/ (getMonth a = 11 /\ getFullYear b = getFullYear a + 1 /\ getMonth b = 0).

(** Consecutive entries of a month list are one month apart. *)
Fixpoint monthByMonth (l : list Date) : Prop :=
  match l with
  | a :: ((b :: _) as rest) => monthSucc a b /\ monthByMonth rest
  | _ => True
  end.

(** The month anchors from [cursor] on, [n] of them. *)
Fixpoint monthsFrom (cursor : Date) (n : nat) : list Date :=
  match n with
  | O => []
  | S n' => cursor :: monthsFrom (setMonth cursor (getMonth cursor + 1)) n'
  end.

(* ------------------------------------------------------------------ *)
(** ** A three-month calendar for the scenarios *)

Definition ymd (y m d : Z) : Date := mkDate y m d 0.

Definition quarter : list Date := [ymd 2024 0 1; ymd 2024 1 1; ymd 2024 2 1].

(** Three mounted months, each 300 high, none with a disabled day. *)
Definition quarterRefs : MonthRefs :=
  map (fun anchor => Some (mkMonth 300 anchor (fun _ => 0) [])) quarter.

(** January 2024 alone, with the 5th, the 15th and the 17th disabled. *)
Definition januaryRefs : MonthRefs :=
  [Some (mkMonth 300 (ymd 2024 0 1) (fun _ => 0)
                 [mkDay (Some (ymd 2024 0 5)); mkDay (Some (ymd 2024 0 15));
                  mkDay (Some (ymd 2024 0 17))])].

Definition quarterProps (t : CalendarType) (v : CalendarValueType)
    : CalendarProps :=
  mkProps t (SubBool true) v (ymd 2024 0 1) (ymd 2024 2 31) false.

Definition idle : State := mkState NodeUndefined 0 0 VUndefined [].

(** The calendar after its bounds have moved on by a month: February to
    April 2024, each month mounted. *)
Definition spring : list Date := [ymd 2024 1 1; ymd 2024 2 1; ymd 2024 3 1].

Definition springRefs : MonthRefs :=
  map (fun anchor => Some (mkMonth 300 anchor (fun _ => 0) [])) spring.

Definition springProps (t : CalendarType) (v : CalendarValueType)
    : CalendarProps :=
  mkProps t (SubBool true) v (ymd 2024 1 1) (ymd 2024 3 30) false.

(* ------------------------------------------------------------------ *)
(** ** The rest of the component (lines 67-89, 145, 368-384) *)

Definition defaultFormatter (day : CalendarDayObject) : CalendarDayObject := day.

(** The children [useCalendarChildren] walks over: elements, with the
    component they instantiate and what they hold, and the nodes that are
    no elements. *)
Inductive ElementType : Type :=
| CalendarFooter
| OtherComponent (name : string).

Inductive Child : Type :=
| ChildElement (elementType : ElementType) (content : ReactNode)
| ChildNode (n : ReactNode).

Record CalendarChildren : Type := mkChildren {
  footer : option Child
}.

(** [Children.forEach] with the assignment to [__children__.footer]. *)
Definition useCalendarChildren (children : list Child) : CalendarChildren :=
  fold_left
    (fun __children__ child =>
       match child with
       | ChildElement CalendarFooter _ => mkChildren (Some child)
       | _ => __children__
       end)
    children (mkChildren None).

(** [firstDayOfWeek ? +firstDayOfWeek % 7 : 0] on an integer or missing
    [firstDayOfWeek]; the remainder takes the sign of the dividend. *)
Definition dayOffset (firstDayOfWeek : option Z) : Z :=
  match firstDayOfWeek with
  | Some n => if n =? 0 then 0 else Z.rem n 7
  | None => 0
  end.

(** [a ?? b]. *)
Definition nullish (a b : CalendarValueType) : CalendarValueType :=
  match a with
  | VNull | VUndefined => b
  | _ => a
  end.

(** The props once the owner has handed [v] back as [value]. *)
Definition withValue (p : CalendarProps) (v : CalendarValueType)
    : CalendarProps :=
  mkProps (type p) (subtitleProp p) v (minValue p) (maxValue p) (readonly p).

(** [reset] (line 368); the deferred call is run at once. *)
Definition reset (p : CalendarProps) (months : list Date)
    (monthRefs : MonthRefs) (body : Body) (date : CalendarValueType)
    (st : State) : Res State :=
  scrollIntoView p months monthRefs body date st.

(** [init] (line 370), run on mount. *)
Definition init (p : CalendarProps) (defaultValue : CalendarValueType)
    (months : list Date) (monthRefs : MonthRefs) (body : Body) (st : State)
    : Res State :=
  reset p months monthRefs body (nullish (currentValue p) defaultValue) st.

(** The props as the memoised [scrollIntoView] sees them.  It is built
    with an empty dependency list (line 366), so the [type] it tests is
    the one of the first render, [type0]; the subtitle render reads a ref
    and is the current one. *)
Definition heldProps (type0 : CalendarType) (p : CalendarProps)
    : CalendarProps :=
  mkProps type0 (subtitleProp p) (currentValue p) (minValue p) (maxValue p)
          (readonly p).

(** The effect on [type], [minValue] and [maxValue] (lines 379-382).
    [getInitialDate] is that of the current render, with the current
    props [p].  [reset] calls the memoised [scrollIntoView], which holds the
    [type] of the first render, [type0], and through its [scrollToDate] and
    [onScroll] the month list of the first render, [months0]; the month
    refs, the body and the state setters are shared by all renders. *)
Definition typeOrBoundsEffect (type0 : CalendarType) (months0 : list Date)
    (p : CalendarProps) (now : Date) (defaultValue : CalendarValueType)
    (monthRefs : MonthRefs) (body : Body) (st : State) : Res State :=
  date <- getInitialDate p now (nullish (currentValue p) defaultValue) ;;
  reset (heldProps type0 p) months0 monthRefs body date st.

(** [Number.MAX_SAFE_INTEGER], and the integers up to it on either side:
    on these the sums and comparisons of [onScroll], which the code takes
    on doubles, are the exact ones as long as the results stay among
    them. *)
Definition MAX_SAFE_INTEGER : Z := 9007199254740991.

Definition isSafeInteger (z : Z) : Prop :=
  - MAX_SAFE_INTEGER <= z <= MAX_SAFE_INTEGER.

(** The top of the month at index [i]: the heights before it, summed as
    the loop of [onScroll] sums them. *)
Definition monthTop (heights : list Z) (i : nat) : Z :=
  fold_left (fun a b => a + b) (firstn i heights) 0.

(** The test [visible] of [onScroll] for the month at index [i]. *)
Definition visibleAt (top bottom : Z) (heights : list Z) (i : nat) : Prop :=
  exists h : Z,
    nth_error heights i = Some h /\
    monthTop heights i <= bottom /\ monthTop heights i + h >= top.

(** The first-of-month date [i] months after the month of [d]. *)
Definition anchorAfter (d : Date) (i : nat) : Date :=
  mkDate ((monthIndex d + Z.of_nat i) / 12) ((monthIndex d + Z.of_nat i) mod 12)
         1 (timeOfDay d).

(* ------------------------------------------------------------------ *)
(** ** Day comparison *)

Lemma compareYearMonth_cases (a b : Date) :
  (compareYearMonth a b = -1 /\
     (getFullYear a < getFullYear b \/
      (getFullYear a = getFullYear b /\ getMonth a < getMonth b))) \/
  (compareYearMonth a b = 0 /\
     getFullYear a = getFullYear b /\ getMonth a = getMonth b) \/
  (compareYearMonth a b = 1 /\
     (getFullYear b < getFullYear a \/
      (getFullYear a = getFullYear b /\ getMonth b < getMonth a))).
Proof.
  unfold compareYearMonth.
  destruct (Z.eqb_spec (getFullYear a) (getFullYear b)) as [Hy|Hy].
  - destruct (Z.eqb_spec (getMonth a) (getMonth b)) as [Hm|Hm].
    + right; left; auto.
    + destruct (Z.gtb_spec (getMonth a) (getMonth b)).
      * right; right; split; [reflexivity | lia].
      * left; split; [reflexivity | lia].
  - destruct (Z.gtb_spec (getFullYear a) (getFullYear b)).
    + right; right; split; [reflexivity | lia].
    + left; split; [reflexivity | lia].
Qed.

Lemma compareDate_cases (a b : Date) :
  (compareDate a b = -1 /\ dayBefore a b) \/
  (compareDate a b = 0 /\ sameDay a b) \/
  (compareDate a b = 1 /\ dayBefore b a).
Proof.
  unfold compareDate, dayBefore, sameDay.
  destruct (compareYearMonth_cases a b) as [[-> H]|[[-> [Hy Hm]]|[-> H]]]; simpl.
  - left; split; [reflexivity | lia].
  - destruct (Z.eqb_spec (getDate a) (getDate b)) as [Hd|Hd].
    + right; left; auto.
    + destruct (Z.gtb_spec (getDate a) (getDate b)).
      * right; right; split; [reflexivity | lia].
      * left; split; [reflexivity | lia].
  - right; right; split; [reflexivity | lia].
Qed.

(** Turns every [compareDate] fact of the context and goal into linear
    arithmetic over the date fields. *)
Ltac by_fields :=
  repeat match goal with
         | H : context [compareDate ?a ?b] |- _ =>
             let C := fresh "C" in
             destruct (compareDate_cases a b) as [[C ?]|[[C ?]|[C ?]]];
             rewrite C in *; clear C
         | |- context [compareDate ?a ?b] =>
             let C := fresh "C" in
             destruct (compareDate_cases a b) as [[C ?]|[[C ?]|[C ?]]];
             rewrite C in *; clear C
         end;
  unfold dayBefore, sameDay in *; cbn [getFullYear getMonth getDate] in *;
  try lia; try congruence.

Lemma compareDate_refl (a : Date) : compareDate a a = 0.
Proof. by_fields. Qed.

Lemma compareDate_before (a b : Date) : compareDate a b = -1 <-> dayBefore a b.
Proof. split; intros H; by_fields. Qed.

Lemma compareDate_same (a b : Date) : compareDate a b = 0 <-> sameDay a b.
Proof. split; intros H; by_fields. Qed.

Lemma compareDate_after (a b : Date) : compareDate a b = 1 <-> dayBefore b a.
Proof. split; intros H; by_fields. Qed.

Lemma daysInMonth_bounds (y m : Z) : 28 <= daysInMonth y m <= 31.
Proof.
  unfold daysInMonth.
  destruct (m =? 1); [destruct (isLeapYear y); lia|].
  destruct ((m =? 3) || (m =? 5) || (m =? 8) || (m =? 10)); lia.
Qed.

Lemma validDate_fields (d : Date) :
  validDate d = true ->
  0 <= getMonth d <= 11 /\
  1 <= getDate d <= daysInMonth (getFullYear d) (getMonth d).
Proof.
  unfold validDate. rewrite !andb_true_iff, !Z.leb_le. lia.
Qed.

Lemma createPreviousDay_before (d : Date) : dayBefore (createPreviousDay d) d.
Proof.
  unfold createPreviousDay, dayBefore.
  destruct (Z.ltb_spec 1 (getDate d)); [simpl; lia|].
  destruct (Z.ltb_spec 0 (getMonth d)); simpl; lia.
Qed.

Lemma createNextDay_after (d : Date) : dayBefore d (createNextDay d).
Proof.
  unfold createNextDay, dayBefore.
  destruct (Z.ltb_spec (getDate d) (daysInMonth (getFullYear d) (getMonth d)));
    [simpl; lia|].
  destruct (Z.ltb_spec (getMonth d) 11); simpl; lia.
Qed.

(** No valid day fits between a day and its predecessor. *)
Lemma before_createPreviousDay (a b : Date) :
  validDate a = true -> validDate b = true ->
  dayBefore a b -> ~ dayBefore (createPreviousDay b) a.
Proof.
  intros Ha Hb Hab.
  apply validDate_fields in Ha, Hb.
  pose proof (daysInMonth_bounds (getFullYear b) (getMonth b - 1)) as Hdim.
  pose proof (daysInMonth_bounds (getFullYear a) (getMonth a)) as Hdima.
  unfold createPreviousDay, dayBefore in *.
  destruct (Z.ltb_spec 1 (getDate b)); [simpl; lia|].
  destruct (Z.ltb_spec 0 (getMonth b)); simpl; [|lia].
  assert (getFullYear a = getFullYear b /\ getMonth a = getMonth b - 1 ->
          getDate a <= daysInMonth (getFullYear b) (getMonth b - 1)) as Hd.
  { intros [Hy Hm]. rewrite <- Hy, <- Hm. lia. }
  lia.
Qed.

(** No valid day fits between a day and its successor. *)
Lemma createNextDay_before (a b : Date) :
  validDate a = true -> validDate b = true ->
  dayBefore a b -> ~ dayBefore b (createNextDay a).
Proof.
  intros Ha Hb Hab.
  apply validDate_fields in Ha, Hb.
  unfold createNextDay, dayBefore in *.
  destruct (Z.ltb_spec (getDate a) (daysInMonth (getFullYear a) (getMonth a)));
    [simpl; lia|].
  assert (getFullYear a = getFullYear b /\ getMonth a = getMonth b ->
          getDate b <= daysInMonth (getFullYear a) (getMonth a)) as Hd.
  { intros [Hy Hm]. rewrite Hy, Hm. lia. }
  destruct (Z.ltb_spec (getMonth a) 11); simpl; lia.
Qed.

(* ------------------------------------------------------------------ *)
(** ** The month sequence *)

Lemma setDate_first (d : Date) :
  setDate d 1 = mkDate (getFullYear d) (getMonth d) 1 (timeOfDay d).
Proof. reflexivity. Qed.

Lemma setMonth_first (d : Date) (m : Z) :
  getDate d = 1 ->
  setMonth d m = mkDate (getFullYear d + m / 12) (m mod 12) 1 (timeOfDay d).
Proof. unfold setMonth. intros ->. reflexivity. Qed.

(** Advancing a first-of-month date by one month, as the loop does. *)
Lemma setMonth_next (d : Date) :
  getDate d = 1 -> 0 <= getMonth d <= 11 ->
  let d' := setMonth d (getMonth d + 1) in
  getDate d' = 1 /\ 0 <= getMonth d' <= 11 /\ monthSucc d d' /\
  monthIndex d' = monthIndex d + 1 /\ timeOfDay d' = timeOfDay d.
Proof.
  intros Hd Hm. cbv zeta. rewrite (setMonth_first _ _ Hd).
  unfold monthSucc, monthIndex. cbn [getFullYear getMonth getDate timeOfDay].
  destruct (Z.eq_dec (getMonth d) 11) as [E|E].
  - rewrite E. change ((11 + 1) / 12) with 1. change ((11 + 1) mod 12) with 0. lia.
  - rewrite (Z.div_small (getMonth d + 1) 12) by lia.
    rewrite (Z.mod_small (getMonth d + 1) 12) by lia. lia.
Qed.

Lemma compareYearMonth_monthIndex (a b : Date) :
  0 <= getMonth a <= 11 -> 0 <= getMonth b <= 11 ->
  (compareYearMonth a b = 1 <-> monthIndex b < monthIndex a) /\
  (compareYearMonth a b = 0 <-> monthIndex a = monthIndex b).
Proof.
  intros Ha Hb. unfold monthIndex.
  destruct (compareYearMonth_cases a b) as [[-> H]|[[-> H]|[-> H]]]; lia.
Qed.

Lemma first_of_month_valid (d : Date) :
  getDate d = 1 -> 0 <= getMonth d <= 11 -> validDate d = true.
Proof.
  intros Hd Hm. unfold validDate.
  pose proof (daysInMonth_bounds (getFullYear d) (getMonth d)).
  rewrite !andb_true_iff, !Z.leb_le. lia.
Qed.

(** The loop, started at or before the last month with fuel to spare,
    appends the anchors up to the last month and stops. *)
Lemma months_loop_run (maxValue : Date) (n : nat) :
  forall (fuel : nat) (cursor : Date) (acc : list Date),
    0 <= getMonth maxValue <= 11 ->
    getDate cursor = 1 -> 0 <= getMonth cursor <= 11 ->
    monthIndex maxValue - monthIndex cursor = Z.of_nat n ->
    (S n <= fuel)%nat ->
    months_loop maxValue fuel cursor acc = Some (acc ++ monthsFrom cursor (S n)).
Proof.
  induction n as [|n IH]; intros fuel cursor acc Hmax Hd Hm Hidx Hfuel;
    (destruct fuel as [|fuel]; [lia|]);
    destruct (setMonth_next cursor Hd Hm) as (Hd' & Hm' & _ & Hidx' & _);
    destruct (compareYearMonth_monthIndex
                (setMonth cursor (getMonth cursor + 1)) maxValue Hm' Hmax)
      as [Hgt _];
    cbn [months_loop monthsFrom].
  - replace (compareYearMonth _ maxValue) with 1
      by (symmetry; apply Hgt; lia).
    reflexivity.
  - destruct (Z.eqb_spec
                (compareYearMonth (setMonth cursor (getMonth cursor + 1)) maxValue) 1)
      as [E|E].
    + apply Hgt in E. lia.
    + cbn [negb]. rewrite (IH fuel) by (auto; lia).
      rewrite <- app_assoc. reflexivity.
Qed.

(** After its first round the loop stops when the next month is already
    past the last month. *)
Lemma months_loop_once (maxValue : Date) (fuel : nat) (cursor : Date)
    (acc : list Date) :
  compareYearMonth (setMonth cursor (getMonth cursor + 1)) maxValue = 1 ->
  months_loop maxValue (S fuel) cursor acc = Some (acc ++ [cursor]).
Proof. intros E. cbn [months_loop]. rewrite E. reflexivity. Qed.

Lemma monthsFrom_entries (n : nat) :
  forall cursor : Date,
    getDate cursor = 1 -> 0 <= getMonth cursor <= 11 ->
    Forall (fun d => getDate d = 1 /\ validDate d = true) (monthsFrom cursor n) /\
    monthByMonth (monthsFrom cursor n).
Proof.
  induction n as [|n IH]; intros cursor Hd Hm; cbn [monthsFrom].
  - split; [constructor | exact I].
  - destruct (setMonth_next cursor Hd Hm) as (Hd' & Hm' & Hs & _ & _).
    destruct (IH _ Hd' Hm') as [HF HB].
    split.
    + constructor; [split; [assumption | now apply first_of_month_valid] | assumption].
    + destruct n as [|n]; [exact I|].
      cbn [monthsFrom monthByMonth] in *. split; assumption.
Qed.

Lemma monthsFrom_last (n : nat) :
  forall cursor d0 : Date,
    getDate cursor = 1 -> 0 <= getMonth cursor <= 11 ->
    let lst := last (monthsFrom cursor (S n)) d0 in
    0 <= getMonth lst <= 11 /\
    monthIndex lst = monthIndex cursor + Z.of_nat n.
Proof.
  induction n as [|n IH]; intros cursor d0 Hd Hm.
  - cbn. lia.
  - destruct (setMonth_next cursor Hd Hm) as (Hd' & Hm' & _ & Hidx & _).
    specialize (IH _ d0 Hd' Hm').
    cbv zeta in *.
    change (monthsFrom cursor (S (S n)))
      with (cursor :: monthsFrom (setMonth cursor (getMonth cursor + 1)) (S n)).
    cbn [last].
    destruct (monthsFrom (setMonth cursor (getMonth cursor + 1)) (S n)) eqn:E;
      [discriminate|].
    lia.
Qed.

(** C2, as stated, fails: with the bounds inverted (March 2024 as the
    minimum, January 2024 as the maximum) the month sequence is not empty;
    it holds the anchor of the minimum's month. *)
Lemma months_inverted_bounds_not_empty :
  compareDate (mkDate 2024 2 1 0) (mkDate 2024 0 31 0) = 1 /\
  months (mkDate 2024 2 1 0) (mkDate 2024 0 31 0) = Some [mkDate 2024 2 1 0] /\
  months (mkDate 2024 2 1 0) (mkDate 2024 0 31 0) <> Some [].
Proof. repeat split. discriminate. Qed.

(** C2, amended: for all bounds with the minimum after the maximum, the
    month-sequence construction returns, without raising and without
    running out of rounds, exactly one month anchor: the first day of the
    minimum's month. *)
Theorem months_inverted_bounds (minValue maxValue : Date) :
  validDate minValue = true ->
  compareDate minValue maxValue = 1 ->
  months minValue maxValue = Some [setDate minValue 1].
Proof.
  intros Hv Hgt. apply validDate_fields in Hv as [Hm _].
  apply compareDate_after in Hgt.
  unfold months.
  rewrite months_loop_once; [reflexivity|].
  rewrite setDate_first.
  set (cursor := mkDate (getFullYear minValue) (getMonth minValue) 1
                        (timeOfDay minValue)).
  destruct (setMonth_next cursor eq_refl Hm) as (_ & _ & Hs & _ & _).
  destruct (compareYearMonth_cases
              (setMonth cursor (getMonth cursor + 1)) maxValue)
    as [[_ H]|[[_ H]|[E _]]]; [exfalso | exfalso | exact E];
    revert Hs H; generalize (setMonth cursor (getMonth cursor + 1));
    intros next Hs H; unfold monthSucc, dayBefore in *;
    cbn [cursor getFullYear getMonth] in Hs; lia.
Qed.

(** An instance: 15 March 2024 as the minimum, 31 December 2023 as the
    maximum. *)
Lemma months_inverted_bounds_witness :
  months (mkDate 2024 2 15 0) (mkDate 2023 11 31 0)
  = Some [setDate (mkDate 2024 2 15 0) 1].
Proof.
  apply (months_inverted_bounds (mkDate 2024 2 15 0) (mkDate 2023 11 31 0));
    reflexivity.
Defined.

(** C6: for all valid bounds with the minimum not after the maximum, the
    month-sequence construction returns a non-empty list of valid
    first-of-month dates in which each entry is the calendar month after
    the one before it, whose first entry has the minimum's year and month
    and whose last entry has the maximum's year and month. *)
Theorem months_month_by_month (minValue maxValue : Date) :
  validDate minValue = true ->
  validDate maxValue = true ->
  compareDate minValue maxValue <> 1 ->
  exists (first : Date) (rest : list Date),
    months minValue maxValue = Some (first :: rest) /\
    Forall (fun d => getDate d = 1 /\ validDate d = true) (first :: rest) /\
    monthByMonth (first :: rest) /\
    compareYearMonth first minValue = 0 /\
    compareYearMonth (last rest first) maxValue = 0.
Proof.
  intros Hmin Hmax Hle.
  apply validDate_fields in Hmin as [Hmin _].
  apply validDate_fields in Hmax as [Hmax _].
  set (cursor := setDate minValue 1).
  assert (Hd : getDate cursor = 1) by reflexivity.
  assert (Hm : 0 <= getMonth cursor <= 11) by exact Hmin.
  assert (Hidx : 0 <= monthIndex maxValue - monthIndex minValue).
  { unfold monthIndex. by_fields. }
  set (n := Z.to_nat (monthIndex maxValue - monthIndex minValue)).
  assert (Hrun : months minValue maxValue = Some (monthsFrom cursor (S n))).
  { unfold months. fold cursor. fold n.
    rewrite (months_loop_run maxValue n); auto.
    change (monthIndex cursor) with (monthIndex minValue). lia. }
  destruct (monthsFrom_entries (S n) cursor Hd Hm) as [HF HB].
  destruct (monthsFrom_last n cursor cursor Hd Hm) as [Hlm Hli].
  cbn [monthsFrom] in *.
  exists cursor, (monthsFrom (setMonth cursor (getMonth cursor + 1)) n).
  repeat split; try assumption.
  - apply compareYearMonth_monthIndex; auto.
  - apply compareYearMonth_monthIndex; auto.
    + cbn [last] in Hlm.
      destruct (monthsFrom (setMonth cursor (getMonth cursor + 1)) n); exact Hlm.
    + assert (Hn : Z.of_nat n = monthIndex maxValue - monthIndex minValue)
        by (unfold n; lia).
      assert (Hc : monthIndex cursor = monthIndex minValue) by reflexivity.
      clearbody n cursor.
      destruct (monthsFrom (setMonth cursor (getMonth cursor + 1)) n);
        cbn [last] in *; lia.
Qed.

(** An instance across a year's end: 20 November 2023 to 3 February 2024. *)
Lemma months_month_by_month_witness :
  exists (first : Date) (rest : list Date),
    months (mkDate 2023 10 20 0) (mkDate 2024 1 3 0) = Some (first :: rest) /\
    Forall (fun d => getDate d = 1 /\ validDate d = true) (first :: rest) /\
    monthByMonth (first :: rest) /\
    compareYearMonth first (mkDate 2023 10 20 0) = 0 /\
    compareYearMonth (last rest first) (mkDate 2024 1 3 0) = 0.
Proof.
  apply (months_month_by_month (mkDate 2023 10 20 0) (mkDate 2024 1 3 0));
    [reflexivity | reflexivity | discriminate].
Defined.

(* ------------------------------------------------------------------ *)
(** ** Passive sync *)

Lemma mapM_seq_defined {B : Type} (f : nat -> Res B) (n : nat) :
  forall (s : nat) (l : list B),
    mapM f (seq s n) = Ok l ->
    List.length l = n /\
    forall i, (s <= i < s + n)%nat -> exists b, f i = Ok b.
Proof.
  induction n as [|n IH]; intros s l H; cbn [seq mapM] in H.
  - injection H as <-. split; [reflexivity | intros i Hi; lia].
  - destruct (f s) as [b|] eqn:Efs; cbn [bind] in H; [|discriminate].
    destruct (mapM f (seq (S s) n)) as [bs|] eqn:Erest; cbn [bind] in H;
      [|discriminate].
    injection H as <-.
    destruct (IH _ _ Erest) as [Hlen Hall].
    split; [cbn [List.length]; lia|].
    intros i Hi. destruct (Nat.eq_dec i s) as [->|Hne].
    + exists b; assumption.
    + apply Hall. lia.
Qed.

Lemma onScroll_loop_index (top bottom : Z) (heights : list Z) :
  forall (i : nat) (height : Z) (found : nat),
    onScroll_loop top bottom heights i height = Some found ->
    (i <= found < i + List.length heights)%nat.
Proof.
  induction heights as [|h rest IH]; intros i height found H;
    cbn [onScroll_loop] in H; [discriminate|].
  destruct ((height <=? bottom) && (height + h >=? top)).
  - injection H as <-. cbn [List.length]. lia.
  - apply IH in H. cbn [List.length]. lia.
Qed.

(** C1, as stated, fails: at scroll offset 500 with a viewport 800 high
    and three months 300 high each, passive sync returns the state as it
    was; no subtitle is published, that of the month at index 1 (February
    2024) included. *)
Lemma onScroll_scenario_publishes_nothing :
  onScroll (quarterProps single VUndefined) quarter quarterRefs
           (mkBody true 0 800 500) idle = Ok idle /\
  events idle = [] /\
  subtitle idle <> subtitleRender (quarterProps single VUndefined) (ymd 2024 1 1).
Proof. repeat split. discriminate. Qed.

(** C1, amended: at scroll offset 500 with a viewport 800 high and three
    mounted months 300 high each, the visible band ends at 1300, past the
    content height 900, with a positive offset; passive sync takes this for
    scroll bounce and leaves the state as it was, publishing nothing.  The
    scan over the months, taken alone, stops at index 1 for this band; and
    with a viewport 400 high, which ends the band at the content height,
    passive sync does select the month at index 1 and publishes its
    subtitle. *)
Theorem onScroll_scenario (p : CalendarProps) (m0 m1 m2 : Date)
    (v0 v1 v2 : Date) (s0 s1 s2 : ReactNode -> Z)
    (d0 d1 d2 : list CalendarDayObject) (mounted : bool) (bodyTop : Z)
    (st : State) :
  let monthRefs := [Some (mkMonth 300 v0 s0 d0); Some (mkMonth 300 v1 s1 d1);
                    Some (mkMonth 300 v2 s2 d2)] in
  onScroll p [m0; m1; m2] monthRefs (mkBody mounted bodyTop 800 500) st = Ok st /\
  onScroll_loop 500 (500 + 800) [300; 300; 300] 0 0 = Some 1%nat /\
  onScroll p [m0; m1; m2] monthRefs (mkBody mounted bodyTop 400 500) st
  = Ok (setSubtitle (subtitleRender p v1) st).
Proof. repeat split. Qed.

(** C5, as stated, fails.  Two passive syncs in a row over the same
    measurements match the same anchor, index 1, and the second publishes
    the subtitle again; when the subtitle render has changed in between,
    the second also changes the subtitle state although the anchor has
    not changed. *)
Lemma onScroll_publishes_again :
  let body := mkBody true 0 400 500 in
  let p := quarterProps single VUndefined in
  let p' := mkProps single (SubNode (NodeText "month")) VUndefined
                    (ymd 2024 0 1) (ymd 2024 2 31) false in
  let st1 := setSubtitle (subtitleRender p (ymd 2024 1 1)) idle in
  onScroll_loop 500 900 [300; 300; 300] 0 0 = Some 1%nat /\
  onScroll p quarter quarterRefs body idle = Ok st1 /\
  onScroll p quarter quarterRefs body st1
  = Ok (setSubtitle (subtitleRender p (ymd 2024 1 1)) st1) /\
  setSubtitle (subtitleRender p (ymd 2024 1 1)) st1 <> st1 /\
  onScroll p' quarter quarterRefs body st1
  = Ok (setSubtitle (NodeText "month") st1) /\
  subtitle (setSubtitle (NodeText "month") st1) <> subtitle st1.
Proof. repeat split; discriminate. Qed.

(** C5, amended: on every passive sync that is not skipped as scroll
    bounce and finds a matching visible month, the subtitle rendered for
    that month is published, whatever was published before: the subtitle
    state becomes that label and one more publication is recorded.  The
    matched anchor is not compared with an earlier one. *)
Theorem onScroll_publishes (p : CalendarProps) (months : list Date)
    (monthRefs : MonthRefs) (body : Body) (st : State) (heights : list Z)
    (i : nat) :
  monthHeights months monthRefs = Ok heights ->
  (scrollTop body + rectHeight body >? fold_left (fun a b => a + b) heights 0)
    && (scrollTop body >? 0) = false ->
  onScroll_loop (scrollTop body) (scrollTop body + rectHeight body)
                heights 0 0 = Some i ->
  exists currentMonth : CalendarMonthInstance,
    monthAt monthRefs i = Ok currentMonth /\
    onScroll p months monthRefs body st
    = Ok (setSubtitle (subtitleRender p (getValue currentMonth)) st) /\
    subtitle (setSubtitle (subtitleRender p (getValue currentMonth)) st)
    = subtitleRender p (getValue currentMonth) /\
    events (setSubtitle (subtitleRender p (getValue currentMonth)) st)
    = SetSubtitle (subtitleRender p (getValue currentMonth)) :: events st.
Proof.
  intros Hh Hguard Hloop.
  pose proof (onScroll_loop_index _ _ _ _ _ _ Hloop) as Hi.
  destruct (mapM_seq_defined _ _ _ _ Hh) as [Hlen Hall].
  destruct (Hall i) as [h Hm]; [lia|].
  destruct (monthAt monthRefs i) as [currentMonth|] eqn:E;
    cbn [bind] in Hm; [|discriminate].
  exists currentMonth. split; [reflexivity|].
  split; [|split; reflexivity].
  unfold onScroll. rewrite Hh. cbn [bind]. rewrite Hguard, Hloop, E.
  reflexivity.
Qed.

(** An instance: offset 500 and a viewport 400 high over the three-month
    calendar. *)
Lemma onScroll_publishes_witness :
  exists currentMonth : CalendarMonthInstance,
    monthAt quarterRefs 1 = Ok currentMonth /\
    onScroll (quarterProps single VUndefined) quarter quarterRefs
             (mkBody true 0 400 500) idle
    = Ok (setSubtitle (subtitleRender (quarterProps single VUndefined)
                                      (getValue currentMonth)) idle) /\
    subtitle (setSubtitle (subtitleRender (quarterProps single VUndefined)
                                          (getValue currentMonth)) idle)
    = subtitleRender (quarterProps single VUndefined) (getValue currentMonth) /\
    events (setSubtitle (subtitleRender (quarterProps single VUndefined)
                                        (getValue currentMonth)) idle)
    = SetSubtitle (subtitleRender (quarterProps single VUndefined)
                                  (getValue currentMonth)) :: events idle.
Proof.
  apply (onScroll_publishes (quarterProps single VUndefined) quarter
           quarterRefs (mkBody true 0 400 500) idle [300; 300; 300] 1);
    reflexivity.
Defined.

(* ------------------------------------------------------------------ *)
(** ** The selection engine *)

Lemma sameDayb_compareDate (a b : Date) :
  negb (sameDayb a b) = negb (compareDate a b =? 0).
Proof.
  f_equal. unfold sameDayb.
  destruct (compareDate_cases a b) as [[-> H]|[[-> H]|[-> H]]];
    unfold dayBefore, sameDay in H; cbn [Z.eqb].
  - destruct (Z.eqb_spec (getFullYear a) (getFullYear b));
      destruct (Z.eqb_spec (getMonth a) (getMonth b));
      destruct (Z.eqb_spec (getDate a) (getDate b)); cbn; try reflexivity; lia.
  - destruct H as (-> & -> & ->). now rewrite !Z.eqb_refl.
  - destruct (Z.eqb_spec (getFullYear a) (getFullYear b));
      destruct (Z.eqb_spec (getMonth a) (getMonth b));
      destruct (Z.eqb_spec (getDate a) (getDate b)); cbn; try reflexivity; lia.
Qed.

Lemma sameDayb_true (a b : Date) : sameDayb a b = true <-> sameDay a b.
Proof.
  unfold sameDayb, sameDay. rewrite !andb_true_iff, !Z.eqb_eq. tauto.
Qed.

Lemma strictlyBetween_test (startDay date v : Date) :
  (compareDate startDay v =? -1) && (compareDate v date =? -1) = true
  <-> strictlyBetween startDay date v.
Proof.
  unfold strictlyBetween. rewrite andb_true_iff, !Z.eqb_eq. tauto.
Qed.

(** The scan answers the first entry that lies strictly between. *)
Lemma getDisabledDate_first (startDay date d : Date) (after : list Date) :
  forall (before : list Date) (disabledDays : list CalendarDayObject),
    map value disabledDays = map Some (before ++ d :: after) ->
    Forall (fun x => ~ strictlyBetween startDay date x) before ->
    strictlyBetween startDay date d ->
    getDisabledDate disabledDays startDay date = Ok (Some d).
Proof.
  induction before as [|x before IH]; intros [|day days] Hmap Hbefore Hd;
    try discriminate; cbn [app map] in Hmap; injection Hmap as Hv Hrest;
    cbn [getDisabledDate]; rewrite Hv.
  - apply strictlyBetween_test in Hd. rewrite Hd. reflexivity.
  - inversion Hbefore as [|? ? Hx Hb]; subst.
    destruct ((compareDate startDay x =? -1) && (compareDate x date =? -1))
      eqn:E; [apply strictlyBetween_test in E; contradiction|].
    now apply IH.
Qed.

Lemma getDisabledDate_none (startDay date : Date) :
  forall (ds : list Date) (disabledDays : list CalendarDayObject),
    map value disabledDays = map Some ds ->
    Forall (fun x => ~ strictlyBetween startDay date x) ds ->
    getDisabledDate disabledDays startDay date = Ok None.
Proof.
  induction ds as [|x ds IH]; intros [|day days] Hmap Hall;
    try discriminate; [reflexivity|].
  cbn [map] in Hmap; injection Hmap as Hv Hrest.
  inversion Hall as [|? ? Hx Hb]; subst.
  cbn [getDisabledDate]; rewrite Hv.
  destruct ((compareDate startDay x =? -1) && (compareDate x date =? -1))
    eqn:E; [apply strictlyBetween_test in E; contradiction|].
  now apply IH.
Qed.

(** What the scan answers lies strictly between and is one of the entries. *)
Lemma getDisabledDate_found (startDay date d : Date) :
  forall entries : list CalendarDayObject,
    getDisabledDate entries startDay date = Ok (Some d) ->
    strictlyBetween startDay date d /\ In (Some d) (map value entries).
Proof.
  induction entries as [|day days IH]; intros H;
    cbn [getDisabledDate] in H; [discriminate|].
  destruct (value day) as [v|] eqn:Ev; [|discriminate].
  cbn [map]. rewrite Ev.
  destruct ((compareDate startDay v =? -1) && (compareDate v date =? -1)) eqn:E.
  - injection H as <-. apply strictlyBetween_test in E. split; [assumption|now left].
  - destruct (IH H) as [Hb Hin]. split; [assumption|now right].
Qed.

(** C3: in range mode with the start set and the end absent, a tap on a
    day after the start gives [start, previousDay(d)] when d is the first
    entry of the disabled days, in the order the month views list them,
    that lies strictly between the start and the tapped day, and
    [start, tappedDay] when no disabled day lies strictly between. *)
Theorem onDayClick_range_after_start (p : CalendarProps) (monthRefs : MonthRefs)
    (l : list (option Date)) (startDay date : Date) (st : State) :
  type p = range -> readonly p = false ->
  currentValue p = VArray l -> entry l 0 = Some startDay -> entry l 1 = None ->
  dayBefore startDay date ->
  (forall (before : list Date) (d : Date) (after : list Date),
      map value (getDisabledDays monthRefs) = map Some (before ++ d :: after) ->
      Forall (fun x => ~ strictlyBetween startDay date x) before ->
      strictlyBetween startDay date d ->
      onDayClick p monthRefs (mkDay (Some date)) st
      = Ok (change (VArray [Some startDay; Some (createPreviousDay d)]) st)) /\
  (forall ds : list Date,
      map value (getDisabledDays monthRefs) = map Some ds ->
      Forall (fun x => ~ strictlyBetween startDay date x) ds ->
      onDayClick p monthRefs (mkDay (Some date)) st
      = Ok (change (VArray [Some startDay; Some date]) st)).
Proof.
  intros Ht Hr Hv Hs He Hafter.
  apply compareDate_after in Hafter.
  split.
  - intros before d after Hmap Hbefore Hd.
    unfold onDayClick. cbn [value]. rewrite Hr, Ht, Hv, Hs, He, Hafter.
    cbn [Z.eqb Pos.eqb].
    rewrite (getDisabledDate_first _ _ _ _ _ _ Hmap Hbefore Hd). reflexivity.
  - intros ds Hmap Hall.
    unfold onDayClick. cbn [value]. rewrite Hr, Ht, Hv, Hs, He, Hafter.
    cbn [Z.eqb Pos.eqb].
    rewrite (getDisabledDate_none _ _ _ _ Hmap Hall). reflexivity.
Qed.

(** Instances: start on 10 January and a tap on the 20th, with the 15th the
    first disabled day in between, and with no disabled day at all. *)
Lemma onDayClick_range_after_start_witness :
  let p := quarterProps range (VArray [Some (ymd 2024 0 10)]) in
  onDayClick p januaryRefs (mkDay (Some (ymd 2024 0 20))) idle
  = Ok (change (VArray [Some (ymd 2024 0 10); Some (ymd 2024 0 14)]) idle) /\
  onDayClick p quarterRefs (mkDay (Some (ymd 2024 0 20))) idle
  = Ok (change (VArray [Some (ymd 2024 0 10); Some (ymd 2024 0 20)]) idle).
Proof.
  cbv zeta. split.
  - refine (proj1 (onDayClick_range_after_start
             (quarterProps range (VArray [Some (ymd 2024 0 10)])) januaryRefs
             [Some (ymd 2024 0 10)] (ymd 2024 0 10) (ymd 2024 0 20) idle
             eq_refl eq_refl eq_refl eq_refl eq_refl _)
             [ymd 2024 0 5] (ymd 2024 0 15) [ymd 2024 0 17] eq_refl _ _).
    + unfold dayBefore; cbn; lia.
    + constructor; [|constructor]. intros [H _]. discriminate H.
    + split; reflexivity.
  - refine (proj2 (onDayClick_range_after_start
             (quarterProps range (VArray [Some (ymd 2024 0 10)])) quarterRefs
             [Some (ymd 2024 0 10)] (ymd 2024 0 10) (ymd 2024 0 20) idle
             eq_refl eq_refl eq_refl eq_refl eq_refl _) [] eq_refl _).
    + unfold dayBefore; cbn; lia.
    + constructor.
Defined.

(** C9: in range mode with the start set and the end absent, a tap on a
    day before the start gives [tappedDay], the old start dropped, and a
    tap on the start's own day gives [tappedDay, tappedDay]. *)
Theorem onDayClick_range_not_after_start (p : CalendarProps)
    (monthRefs : MonthRefs) (l : list (option Date)) (startDay date : Date)
    (st : State) :
  type p = range -> readonly p = false ->
  currentValue p = VArray l -> entry l 0 = Some startDay -> entry l 1 = None ->
  (dayBefore date startDay ->
   onDayClick p monthRefs (mkDay (Some date)) st
   = Ok (change (VArray [Some date]) st)) /\
  (sameDay date startDay ->
   onDayClick p monthRefs (mkDay (Some date)) st
   = Ok (change (VArray [Some date; Some date]) st)).
Proof.
  intros Ht Hr Hv Hs He.
  split; intros Hcmp;
    [apply compareDate_before in Hcmp | apply compareDate_same in Hcmp];
    unfold onDayClick; cbn [value]; rewrite Hr, Ht, Hv, Hs, He, Hcmp;
    reflexivity.
Qed.

(** Instances: start on 10 February, a tap on 31 January, and a tap on
    10 February at one o'clock. *)
Lemma onDayClick_range_not_after_start_witness :
  let p := quarterProps range (VArray [Some (ymd 2024 1 10)]) in
  onDayClick p quarterRefs (mkDay (Some (ymd 2024 0 31))) idle
  = Ok (change (VArray [Some (ymd 2024 0 31)]) idle) /\
  onDayClick p quarterRefs (mkDay (Some (mkDate 2024 1 10 3600000))) idle
  = Ok (change (VArray [Some (mkDate 2024 1 10 3600000);
                        Some (mkDate 2024 1 10 3600000)]) idle).
Proof.
  cbv zeta. split.
  - apply (proj1 (onDayClick_range_not_after_start
             (quarterProps range (VArray [Some (ymd 2024 1 10)])) quarterRefs
             [Some (ymd 2024 1 10)] (ymd 2024 1 10) (ymd 2024 0 31) idle
             eq_refl eq_refl eq_refl eq_refl eq_refl)).
    unfold dayBefore; cbn; lia.
  - apply (proj2 (onDayClick_range_not_after_start
             (quarterProps range (VArray [Some (ymd 2024 1 10)])) quarterRefs
             [Some (ymd 2024 1 10)] (ymd 2024 1 10) (mkDate 2024 1 10 3600000)
             idle eq_refl eq_refl eq_refl eq_refl eq_refl)).
    unfold sameDay; cbn; lia.
Defined.

Lemma filterOtherDays_dates (date : Date) (dates : list Date) :
  filterOtherDays (map Some dates) date
  = Ok (map Some (filter (fun x => negb (sameDayb x date)) dates)).
Proof.
  induction dates as [|x dates IH]; [reflexivity|].
  cbn [map filterOtherDays filter]. rewrite IH. cbn [bind].
  rewrite <- sameDayb_compareDate.
  destruct (negb (sameDayb x date)); reflexivity.
Qed.

Lemma filter_length_le_all {A : Type} (f : A -> bool) (l : list A) :
  (List.length (filter f l) <= List.length l)%nat.
Proof.
  induction l as [|x l IH]; cbn [filter List.length]; [lia|].
  destruct (f x); cbn [List.length]; lia.
Qed.

Lemma filter_length_lt {A : Type} (f : A -> bool) (l : list A) :
  Exists (fun x => f x = false) l ->
  (List.length (filter f l) < List.length l)%nat.
Proof.
  induction 1 as [x l Hx|x l _ IH]; cbn [filter List.length].
  - rewrite Hx. pose proof (filter_length_le_all f l). lia.
  - destruct (f x); cbn [List.length]; lia.
Qed.

Lemma filter_all {A : Type} (f : A -> bool) (l : list A) :
  Forall (fun x => f x = true) l -> filter f l = l.
Proof.
  induction 1 as [|x l Hx _ IH]; cbn [filter]; [reflexivity|].
  rewrite Hx, IH. reflexivity.
Qed.

(** C8: in multiple mode, for every current list of dates, a tap on a day
    that is day-equal to some entry gives the list without the entries
    day-equal to the tapped day, the others kept in their order; a tap on
    a day that no entry is day-equal to gives the list with the tapped day
    appended. *)
Theorem onDayClick_multiple_toggle (p : CalendarProps) (monthRefs : MonthRefs)
    (dates : list Date) (date : Date) (st : State) :
  type p = multiple -> readonly p = false ->
  currentValue p = VArray (map Some dates) ->
  (Exists (fun x => sameDay x date) dates ->
   onDayClick p monthRefs (mkDay (Some date)) st
   = Ok (change (VArray (map Some
           (filter (fun x => negb (sameDayb x date)) dates))) st)) /\
  (Forall (fun x => ~ sameDay x date) dates ->
   onDayClick p monthRefs (mkDay (Some date)) st
   = Ok (change (VArray (map Some (dates ++ [date]))) st)).
Proof.
  intros Ht Hr Hv.
  split; intros H; unfold onDayClick; cbn [value];
    rewrite Hr, Ht, Hv, filterOtherDays_dates; cbn [bind];
    rewrite !length_map.
  - assert (Hlt : (List.length (filter (fun x => negb (sameDayb x date)) dates)
                   < List.length dates)%nat).
    { apply filter_length_lt. eapply Exists_impl; [|exact H].
      intros x Hx. apply sameDayb_true in Hx. now rewrite Hx. }
    destruct (Nat.eqb_spec
                (List.length (filter (fun x => negb (sameDayb x date)) dates))
                (List.length dates)); [lia | reflexivity].
  - rewrite filter_all.
    + rewrite Nat.eqb_refl. cbn [negb]. rewrite map_app. reflexivity.
    + eapply Forall_impl; [|exact H].
      intros x Hx. destruct (sameDayb x date) eqn:E; [|reflexivity].
      apply sameDayb_true in E. contradiction.
Qed.

(** Instances: a list holding 5 January twice, at midnight and at one
    o'clock; taps on the 5th and on the 6th. *)
Lemma onDayClick_multiple_toggle_witness :
  let dates := [ymd 2024 0 5; ymd 2024 0 9; mkDate 2024 0 5 3600000;
                ymd 2024 1 1] in
  let p := quarterProps multiple (VArray (map Some dates)) in
  onDayClick p quarterRefs (mkDay (Some (ymd 2024 0 5))) idle
  = Ok (change (VArray [Some (ymd 2024 0 9); Some (ymd 2024 1 1)]) idle) /\
  onDayClick p quarterRefs (mkDay (Some (ymd 2024 0 6))) idle
  = Ok (change (VArray (map Some (dates ++ [ymd 2024 0 6]))) idle).
Proof.
  cbv zeta. split.
  - apply (proj1 (onDayClick_multiple_toggle
             (quarterProps multiple
                (VArray (map Some [ymd 2024 0 5; ymd 2024 0 9;
                                   mkDate 2024 0 5 3600000; ymd 2024 1 1])))
             quarterRefs
             [ymd 2024 0 5; ymd 2024 0 9; mkDate 2024 0 5 3600000; ymd 2024 1 1]
             (ymd 2024 0 5) idle eq_refl eq_refl eq_refl)).
    left. unfold sameDay; cbn; lia.
  - apply (proj2 (onDayClick_multiple_toggle
             (quarterProps multiple
                (VArray (map Some [ymd 2024 0 5; ymd 2024 0 9;
                                   mkDate 2024 0 5 3600000; ymd 2024 1 1])))
             quarterRefs
             [ymd 2024 0 5; ymd 2024 0 9; mkDate 2024 0 5 3600000; ymd 2024 1 1]
             (ymd 2024 0 6) idle eq_refl eq_refl eq_refl)).
    repeat constructor; unfold sameDay; cbn; lia.
Defined.

Lemma events_not_grown (e : Effect) (l : list Effect) : l <> e :: l.
Proof.
  intros H. apply (f_equal (@List.length Effect)) in H.
  cbn [List.length] in H. lia.
Qed.

Lemma entry_In (l : list (option Date)) (i : nat) (d : Date) :
  entry l i = Some d -> In (Some d) l.
Proof.
  unfold entry. destruct (nth_error l i) as [o|] eqn:E; [|discriminate].
  intros ->. eapply nth_error_In; eassumption.
Qed.

(** C4, as stated, fails for initial-value normalisation: the raw default
    [20 January, 10 January], well inside the bounds, comes back as it is,
    with its start after its end. *)
Lemma getInitialDate_range_not_ordered :
  getInitialDate (quarterProps range VUndefined) (ymd 2024 1 10)
                 (VArray [Some (ymd 2024 0 20); Some (ymd 2024 0 10)])
  = Ok (VArray [Some (ymd 2024 0 20); Some (ymd 2024 0 10)]) /\
  compareDate (ymd 2024 0 20) (ymd 2024 0 10) = 1.
Proof. split; reflexivity. Qed.

(** C4, amended: every value with both a start and an end that a tap in
    range mode passes to [change] has its start not after its end.
    (Initial-value normalisation clamps start and end each on its own and
    does not order them.) *)
Theorem onDayClick_range_ordered (p : CalendarProps) (monthRefs : MonthRefs)
    (tapped : CalendarDayObject) (st st' : State) (startDay endDay : Date) :
  type p = range ->
  (forall l d, currentValue p = VArray l -> In (Some d) l -> validDate d = true) ->
  (forall d, In (Some d) (map value (getDisabledDays monthRefs)) ->
             validDate d = true) ->
  onDayClick p monthRefs tapped st = Ok st' ->
  events st' = OnChange (VArray [Some startDay; Some endDay]) :: events st ->
  compareDate startDay endDay <> 1.
Proof.
  intros Ht Hcur Hdis Hclick Hev.
  unfold onDayClick in Hclick. rewrite Ht in Hclick.
  destruct (value tapped) as [date|];
    [|injection Hclick as <-; now apply events_not_grown in Hev].
  destruct (readonly p);
    [injection Hclick as <-; now apply events_not_grown in Hev|].
  destruct (currentValue p) as [| |d|l] eqn:Ev; try discriminate;
    try (injection Hclick as <-; cbn [change events] in Hev; discriminate).
  destruct (entry l 0) as [start|] eqn:Es;
    [|injection Hclick as <-; cbn [change events] in Hev; discriminate].
  destruct (entry l 1) as [e|] eqn:Ee;
    [injection Hclick as <-; cbn [change events] in Hev; discriminate|].
  destruct (Z.eqb_spec (compareDate date start) 1) as [Hgt|_].
  - destruct (getDisabledDate (getDisabledDays monthRefs) start date)
      as [[disabledDay|]|] eqn:Ed; cbn [bind] in Hclick; try discriminate;
      injection Hclick as <-; cbn [change events] in Hev;
      injection Hev as <- <-.
    + apply getDisabledDate_found in Ed as [[Hb _] Hin].
      apply compareDate_before in Hb.
      assert (Hn : ~ dayBefore (createPreviousDay disabledDay) start).
      { apply before_createPreviousDay; auto.
        apply (Hcur l); [reflexivity | now apply (entry_In l 0)]. }
      intros Habs. apply compareDate_after in Habs. contradiction.
    + by_fields.
  - destruct (compareDate date start =? -1);
      injection Hclick as <-; cbn [change events] in Hev;
      [discriminate|].
    injection Hev as <- <-. rewrite compareDate_refl. discriminate.
Qed.

(** An instance: the range from the 10th to the 14th that the tap on the
    20th produces when the 15th is disabled. *)
Lemma onDayClick_range_ordered_witness :
  compareDate (ymd 2024 0 10) (ymd 2024 0 14) <> 1.
Proof.
  apply (onDayClick_range_ordered
           (quarterProps range (VArray [Some (ymd 2024 0 10)])) januaryRefs
           (mkDay (Some (ymd 2024 0 20))) idle
           (change (VArray [Some (ymd 2024 0 10); Some (ymd 2024 0 14)]) idle)
           (ymd 2024 0 10) (ymd 2024 0 14)).
  - reflexivity.
  - intros l d H Hin. injection H as <-.
    destruct Hin as [E|[]]. injection E as <-. reflexivity.
  - intros d Hin. cbn in Hin.
    destruct Hin as [E|[E|[E|[]]]]; injection E as <-; reflexivity.
  - reflexivity.
  - reflexivity.
Defined.

(* ------------------------------------------------------------------ *)
(** ** Initial-value normalisation *)

Lemma limitDateRange_inRange (date minDate maxDate : Date) :
  compareDate minDate maxDate <> 1 ->
  inRange minDate maxDate (limitDateRange date minDate maxDate).
Proof.
  intros Hle. unfold limitDateRange, inRange.
  destruct (Z.eqb_spec (compareDate date minDate) (-1)) as [E1|E1].
  - rewrite compareDate_refl. split; [discriminate | assumption].
  - destruct (Z.eqb_spec (compareDate date maxDate) 1) as [E2|E2].
    + rewrite compareDate_refl. split; [|discriminate].
      clear E1 E2. by_fields.
    + split; assumption.
Qed.

Lemma inRange_widen (lo hi lo' hi' d : Date) :
  compareDate lo' lo <> 1 -> compareDate hi hi' <> 1 ->
  inRange lo hi d -> inRange lo' hi' d.
Proof.
  unfold inRange. intros Hlo Hhi [H1 H2]. split; by_fields.
Qed.

Lemma mapM_limitEntry (minDate maxDate : Date) (l : list (option Date)) :
  compareDate minDate maxDate <> 1 ->
  Forall (fun o => o <> None) l ->
  exists ds,
    mapM (limitEntry minDate maxDate) l = Ok ds /\
    Forall (inRange minDate maxDate) ds.
Proof.
  intros Hle. induction 1 as [|o l Ho _ [ds [E HF]]].
  - exists []. split; [reflexivity | constructor].
  - destruct o as [d|]; [|congruence].
    exists (limitDateRange d minDate maxDate :: ds).
    cbn [mapM limitEntry bind]. rewrite E. cbn [bind].
    split; [reflexivity|].
    constructor; [now apply limitDateRange_inRange | assumption].
Qed.

(** C7, as stated, fails.  In range mode with the minimum equal to the
    maximum (10 January 2024, also today) the normalised start is the 9th
    and the normalised end the 11th, both outside the bounds; in multiple
    mode a raw default with a null-ish entry makes normalisation throw, so
    no value is returned. *)
Lemma getInitialDate_outside_bounds :
  let p := mkProps range (SubBool true) VUndefined (ymd 2024 0 10)
                   (ymd 2024 0 10) false in
  getInitialDate p (ymd 2024 0 10) VUndefined
  = Ok (VArray [Some (ymd 2024 0 9); Some (ymd 2024 0 11)]) /\
  ~ withinBounds (minValue p) (maxValue p)
      (VArray [Some (ymd 2024 0 9); Some (ymd 2024 0 11)]) /\
  getInitialDate (quarterProps multiple VUndefined) (ymd 2024 1 10)
                 (VArray [Some (ymd 2024 0 20); None]) = Throw.
Proof.
  cbv zeta. split; [reflexivity|]. split; [|reflexivity].
  cbn [withinBounds minValue maxValue]. intros H.
  inversion H as [|? ? [d [E [Hlo _]]] _]; subst.
  injection E as <-. apply Hlo. reflexivity.
Qed.

(** C7, amended: for valid bounds with the minimum not after the maximum,
    and strictly before it in range mode, and for every raw default other
    than [null] whose entries, in multiple mode, are all dates,
    initial-value normalisation returns a value all of whose date
    components lie within the bounds; null-ish entries in range mode,
    arrays of any length, an array under single mode and dates outside the
    bounds are all accepted. *)
Theorem getInitialDate_within_bounds (p : CalendarProps) (now : Date)
    (defaultDate : CalendarValueType) :
  validDate (minValue p) = true -> validDate (maxValue p) = true ->
  compareDate (minValue p) (maxValue p) <> 1 ->
  (type p = range -> dayBefore (minValue p) (maxValue p)) ->
  (type p = multiple ->
   forall l, defaultDate = VArray l -> Forall (fun o => o <> None) l) ->
  defaultDate <> VNull ->
  exists v : CalendarValueType,
    getInitialDate p now defaultDate = Ok v /\
    withinBounds (minValue p) (maxValue p) v.
Proof.
  intros Hvmin Hvmax Hle Hrange Hmult Hnull.
  assert (Hsel : getInitialDate p now defaultDate =
    match type p with
    | range =>
        let arr := match defaultDate with VArray l => l | _ => [] end in
        Ok (VArray
              [Some (limitDateRange (orElse (entry arr 0) now) (minValue p)
                       (createPreviousDay (maxValue p)));
               Some (limitDateRange (orElse (entry arr 1) now)
                       (createNextDay (minValue p)) (maxValue p))])
    | multiple =>
        match defaultDate with
        | VArray l =>
            ds <- mapM (limitEntry (minValue p) (maxValue p)) l ;;
            Ok (VArray (map Some ds))
        | _ => Ok (VArray [Some (limitDateRange now (minValue p) (maxValue p))])
        end
    | single =>
        Ok (VDate (limitDateRange
                     match defaultDate with VDate d => d | _ => now end
                     (minValue p) (maxValue p)))
    end).
  { destruct defaultDate; [congruence | reflexivity ..]. }
  rewrite Hsel. clear Hsel.
  destruct (type p) eqn:Ht.
  - eexists; split; [reflexivity|]. now apply limitDateRange_inRange.
  - destruct defaultDate as [| |d|l];
      try (eexists; split; [reflexivity|]; repeat constructor;
           eexists; split; [reflexivity|]; now apply limitDateRange_inRange).
    destruct (mapM_limitEntry (minValue p) (maxValue p) l Hle
                (Hmult eq_refl l eq_refl)) as [ds [E HF]].
    rewrite E. cbn [bind]. eexists; split; [reflexivity|].
    cbn [withinBounds]. apply Forall_map.
    eapply Forall_impl; [|exact HF]. intros d Hd. exists d. auto.
  - specialize (Hrange eq_refl).
    assert (Hlo : compareDate (minValue p) (createPreviousDay (maxValue p)) <> 1).
    { intros H. apply compareDate_after in H.
      revert H. now apply before_createPreviousDay. }
    assert (Hhi : compareDate (createNextDay (minValue p)) (maxValue p) <> 1).
    { intros H. apply compareDate_after in H.
      revert H. now apply createNextDay_before. }
    pose proof (createPreviousDay_before (maxValue p)) as Hp.
    pose proof (createNextDay_after (minValue p)) as Hn.
    apply compareDate_before in Hp, Hn.
    eexists; split; [reflexivity|]. cbn [withinBounds].
    constructor; [|constructor; [|constructor]]; eexists; (split; [reflexivity|]).
    + eapply inRange_widen; [| |apply limitDateRange_inRange; exact Hlo].
      * rewrite compareDate_refl; discriminate.
      * rewrite Hp; discriminate.
    + eapply inRange_widen; [| |apply limitDateRange_inRange; exact Hhi].
      * clear Hlo Hhi Hp. by_fields.
      * rewrite compareDate_refl; discriminate.
Qed.

(** An instance in range mode: a raw default of three entries, the first
    null-ish and the second before the bounds, with today after them. *)
Lemma getInitialDate_within_bounds_witness :
  exists v : CalendarValueType,
    getInitialDate (quarterProps range VUndefined) (ymd 2025 5 1)
                   (VArray [None; Some (ymd 2023 0 1); Some (ymd 2024 1 1)])
    = Ok v /\
    withinBounds (ymd 2024 0 1) (ymd 2024 2 31) v.
Proof.
  apply (getInitialDate_within_bounds (quarterProps range VUndefined)
           (ymd 2025 5 1)
           (VArray [None; Some (ymd 2023 0 1); Some (ymd 2024 1 1)])).
  - reflexivity.
  - reflexivity.
  - discriminate.
  - intros _. unfold dayBefore; cbn; lia.
  - intros H; discriminate H.
  - discriminate.
Defined.

(* ------------------------------------------------------------------ *)
(** ** Active navigation *)

(** The state [scrollToDate] leaves once it has matched the month
    instance [currentMonth]. *)
Lemma scrollToDate_some_match (p : CalendarProps) (monthRefs : MonthRefs)
    (body : Body) (target month : Date) (after : list Date)
    (currentMonth : CalendarMonthInstance) (st : State) :
  forall (before : list Date) (index : nat),
    Forall (fun m => compareYearMonth m target <> 0) before ->
    compareYearMonth month target = 0 ->
    monthAt monthRefs (index + List.length before) = Ok currentMonth ->
    scrollToDate_some p (before ++ month :: after) index monthRefs body
                      (Some target) st
    = let label := subtitleRender p (getValue currentMonth) in
      let offset := getScrollTop currentMonth label - rectTop body
                    + scrollTop body in
      let st1 := setSubtitle label st in
      Ok (if bodyMounted body then
            if bodyScrollTopRef st =? offset
            then setBodyScrollTop offset st1
            else setBodyScrollTop offset
                   (setBodyScrollTop (bodyScrollTopRef st) st1)
          else st1).
Proof.
  induction before as [|m before IH]; intros index Hbefore Hmonth Hat.
  - cbn [app scrollToDate_some]. rewrite Hmonth. cbn [Z.eqb].
    cbn [List.length] in Hat. rewrite Nat.add_0_r in Hat. rewrite Hat.
    cbn [bind setMonthSubtitle]. cbv zeta.
    destruct (bodyMounted body); [|reflexivity].
    change (bodyScrollTopRef (setSubtitle _ st)) with (bodyScrollTopRef st).
    destruct (bodyScrollTopRef st =? _); reflexivity.
  - inversion Hbefore as [|? ? Hm Hb]; subst.
    cbn [app scrollToDate_some].
    destruct (Z.eqb_spec (compareYearMonth m target) 0) as [E|_];
      [contradiction|].
    apply IH; auto.
    cbn [List.length] in Hat. now rewrite Nat.add_succ_comm.
Qed.

(** C10, where the code goes wrong.  The calendar is first rendered for
    January to March 2024 and its bounds then move to February to April,
    in range mode with the value [15 March, 20 March].  The effect on the
    bounds normalises the value (it stays as it is) and calls the memoised
    [scrollIntoView], whose [scrollToDate] still searches the month list
    of the first render: it finds March at index 2, where the mounted
    months now have April.  The subtitle published is April's, not that
    of the first entry's month. *)
Lemma scrollIntoView_stale_month_list :
  let newValue := VArray [Some (ymd 2024 2 15); Some (ymd 2024 2 20)] in
  let p := springProps range newValue in
  let body := mkBody true 0 800 0 in
  months (ymd 2024 0 1) (ymd 2024 2 31) = Some quarter /\
  months (minValue p) (maxValue p) = Some spring /\
  getInitialDate p (ymd 2024 2 1) (nullish (currentValue p) VUndefined)
  = Ok newValue /\
  typeOrBoundsEffect range quarter p (ymd 2024 2 1) VUndefined springRefs body idle
  = scrollIntoView (heldProps range p) quarter springRefs body newValue idle /\
  exists st' : State,
    scrollIntoView (heldProps range p) quarter springRefs body newValue idle
    = Ok st' /\
    subtitle st' = NodeText "2024年4月" /\
    subtitle st' = subtitleRender p (ymd 2024 3 1) /\
    subtitleRender p (ymd 2024 2 15) = NodeText "2024年3月" /\
    compareYearMonth (ymd 2024 3 1) (ymd 2024 2 15) <> 0.
Proof.
  cbv zeta. repeat split.
  eexists. repeat split. discriminate.
Qed.

Lemma compareYearMonth_same_trans (a b c : Date) :
  compareYearMonth a b = 0 -> compareYearMonth b c = 0 ->
  compareYearMonth a c = 0.
Proof.
  intros Hab Hbc.
  destruct (compareYearMonth_cases a b) as [[E _]|[[_ [Hy Hm]]|[E _]]];
    try congruence.
  destruct (compareYearMonth_cases b c) as [[E _]|[[_ [Hy' Hm']]|[E _]]];
    try congruence.
  destruct (compareYearMonth_cases a c) as [[_ H]|[[E _]|[_ H]]];
    [lia | exact E | lia].
Qed.

(** X24: when the month list that [scrollIntoView] holds is the one
    rendered, so that the month instance at the index of an anchor shows
    that anchor's year and month (as at mount), a non-empty array whose
    first entry is a date is navigated to by its first entry, whatever the
    mode and whatever the other entries: the subtitle published is
    rendered for a month of the first entry's year and month, and the
    offset applied, when the body is mounted, is the one that month's
    instance answers. *)
Theorem scrollIntoView_array_first (p : CalendarProps) (months : list Date)
    (monthRefs : MonthRefs) (body : Body) (first : Date)
    (others : list (option Date)) (st : State) :
  scrollIntoView p months monthRefs body (VArray (Some first :: others)) st
  = scrollToDate p months monthRefs body (Some first) st /\
  forall (before : list Date) (month : Date) (after : list Date)
         (currentMonth : CalendarMonthInstance),
    months = before ++ month :: after ->
    Forall (fun m => compareYearMonth m first <> 0) before ->
    compareYearMonth month first = 0 ->
    monthAt monthRefs (List.length before) = Ok currentMonth ->
    compareYearMonth (getValue currentMonth) month = 0 ->
    exists st' : State,
      scrollIntoView p months monthRefs body (VArray (Some first :: others)) st
      = Ok st' /\
      compareYearMonth (getValue currentMonth) first = 0 /\
      subtitle st' = subtitleRender p (getValue currentMonth) /\
      In (SetSubtitle (subtitleRender p (getValue currentMonth))) (events st') /\
      (bodyMounted body = true ->
       bodyScrollTop st'
       = getScrollTop currentMonth (subtitleRender p (getValue currentMonth))
         - rectTop body + scrollTop body).
Proof.
  assert (Hfirst :
    scrollIntoView p months monthRefs body (VArray (Some first :: others)) st
    = scrollToDate p months monthRefs body (Some first) st).
  { unfold scrollIntoView. cbn [truthy]. destruct (type p); reflexivity. }
  split; [exact Hfirst|].
  intros before month after currentMonth -> Hbefore Hmonth Hat Hshown.
  rewrite Hfirst. unfold scrollToDate.
  rewrite (scrollToDate_some_match p monthRefs body first month after
             currentMonth st before 0 Hbefore Hmonth Hat).
  cbv zeta. eexists. split; [reflexivity|].
  split; [exact (compareYearMonth_same_trans _ _ _ Hshown Hmonth)|].
  destruct (bodyMounted body).
  - destruct (bodyScrollTopRef st =? _); cbn; auto 6.
  - cbn. split; [reflexivity|]. split; [now left | discriminate].
Qed.

(** An instance: a range starting on 14 February 2024 over the
    three-month calendar. *)
Lemma scrollIntoView_array_first_witness :
  exists st' : State,
    scrollIntoView (quarterProps range VUndefined) quarter quarterRefs
                   (mkBody true 10 800 0)
                   (VArray [Some (ymd 2024 1 14); Some (ymd 2024 2 2)]) idle
    = Ok st' /\
    compareYearMonth (ymd 2024 1 1) (ymd 2024 1 14) = 0 /\
    subtitle st' = NodeText "2024年2月" /\
    In (SetSubtitle (NodeText "2024年2月")) (events st') /\
    (true = true -> bodyScrollTop st' = -10).
Proof.
  apply (proj2 (scrollIntoView_array_first (quarterProps range VUndefined)
                  quarter quarterRefs (mkBody true 10 800 0) (ymd 2024 1 14)
                  [Some (ymd 2024 2 2)] idle)
               [ymd 2024 0 1] (ymd 2024 1 1) [ymd 2024 2 1]
               (mkMonth 300 (ymd 2024 1 1) (fun _ => 0) [])).
  - reflexivity.
  - constructor; [discriminate | constructor].
  - reflexivity.
  - reflexivity.
  - reflexivity.
Defined.

(* ------------------------------------------------------------------ *)
(** ** Clamping and normalisation, further *)

Lemma limitDateRange_fixed (date lo hi : Date) :
  inRange lo hi date -> limitDateRange date lo hi = date.
Proof.
  unfold inRange, limitDateRange. intros [H1 H2].
  destruct (Z.eqb_spec (compareDate date lo) (-1)); [contradiction|].
  destruct (Z.eqb_spec (compareDate date hi) 1); [contradiction|].
  reflexivity.
Qed.

Lemma limitDateRange_twice (date lo hi : Date) :
  compareDate lo hi <> 1 ->
  limitDateRange (limitDateRange date lo hi) lo hi = limitDateRange date lo hi.
Proof.
  intros Hle. apply limitDateRange_fixed. now apply limitDateRange_inRange.
Qed.

(** X1: [limitDateRange] over an interval that is not inverted answers a
    date of the interval, answers a date of the interval unchanged, and
    applied a second time changes nothing; what it answers is always the
    date, the lower end or the upper end. *)
Theorem limitDateRange_clamps (date lo hi : Date) :
  compareDate lo hi <> 1 ->
  inRange lo hi (limitDateRange date lo hi) /\
  (inRange lo hi date -> limitDateRange date lo hi = date) /\
  limitDateRange (limitDateRange date lo hi) lo hi = limitDateRange date lo hi /\
  (limitDateRange date lo hi = date \/ limitDateRange date lo hi = lo \/
   limitDateRange date lo hi = hi).
Proof.
  intros Hle. repeat split.
  - now apply limitDateRange_inRange.
  - now apply limitDateRange_inRange.
  - apply limitDateRange_fixed.
  - now apply limitDateRange_twice.
  - unfold limitDateRange.
    destruct (compareDate date lo =? -1); [auto|].
    destruct (compareDate date hi =? 1); auto.
Qed.

(** An instance: 5 April 2024 against the first quarter of 2024. *)
Lemma limitDateRange_clamps_witness :
  inRange (ymd 2024 0 1) (ymd 2024 2 31)
          (limitDateRange (ymd 2024 3 5) (ymd 2024 0 1) (ymd 2024 2 31)) /\
  limitDateRange (ymd 2024 3 5) (ymd 2024 0 1) (ymd 2024 2 31) = ymd 2024 2 31.
Proof.
  split.
  - apply (limitDateRange_clamps (ymd 2024 3 5) (ymd 2024 0 1) (ymd 2024 2 31)).
    discriminate.
  - reflexivity.
Defined.

(** X2: over an inverted interval [limitDateRange] does not clamp: a date
    before the lower end comes back as the lower end and every other date
    as the upper end, so the answer is never within the interval. *)
Theorem limitDateRange_inverted (date lo hi : Date) :
  compareDate lo hi = 1 ->
  limitDateRange date lo hi = (if compareDate date lo =? -1 then lo else hi) /\
  ~ inRange lo hi (limitDateRange date lo hi).
Proof.
  intros Hinv.
  assert (E : limitDateRange date lo hi
              = if compareDate date lo =? -1 then lo else hi).
  { unfold limitDateRange.
    destruct (Z.eqb_spec (compareDate date lo) (-1)) as [|Hge]; [reflexivity|].
    destruct (Z.eqb_spec (compareDate date hi) 1) as [|Hn]; [reflexivity|].
    exfalso. by_fields. }
  split; [exact E|]. rewrite E. unfold inRange.
  destruct (compareDate date lo =? -1); intros [H1 H2]; by_fields.
Qed.

(** An instance: the interval from the 10th back to the 9th of January. *)
Lemma limitDateRange_inverted_witness :
  limitDateRange (ymd 2024 0 10) (ymd 2024 0 10) (ymd 2024 0 9)
  = (if compareDate (ymd 2024 0 10) (ymd 2024 0 10) =? -1
     then ymd 2024 0 10 else ymd 2024 0 9) /\
  ~ inRange (ymd 2024 0 10) (ymd 2024 0 9)
      (limitDateRange (ymd 2024 0 10) (ymd 2024 0 10) (ymd 2024 0 9)).
Proof.
  apply (limitDateRange_inverted (ymd 2024 0 10) (ymd 2024 0 10) (ymd 2024 0 9)).
  reflexivity.
Defined.

Lemma getInitialDate_cases (p : CalendarProps) (now : Date)
    (defaultDate : CalendarValueType) :
  defaultDate <> VNull ->
  getInitialDate p now defaultDate =
    match type p with
    | range =>
        let arr := match defaultDate with VArray l => l | _ => [] end in
        Ok (VArray
              [Some (limitDateRange (orElse (entry arr 0) now) (minValue p)
                       (createPreviousDay (maxValue p)));
               Some (limitDateRange (orElse (entry arr 1) now)
                       (createNextDay (minValue p)) (maxValue p))])
    | multiple =>
        match defaultDate with
        | VArray l =>
            ds <- mapM (limitEntry (minValue p) (maxValue p)) l ;;
            Ok (VArray (map Some ds))
        | _ => Ok (VArray [Some (limitDateRange now (minValue p) (maxValue p))])
        end
    | single =>
        Ok (VDate (limitDateRange
                     match defaultDate with VDate d => d | _ => now end
                     (minValue p) (maxValue p)))
    end.
Proof. destruct defaultDate; [congruence | reflexivity ..]. Qed.

(** The two intervals of range mode are not inverted when the minimum is
    strictly before the maximum. *)
Lemma range_intervals (minDate maxDate : Date) :
  validDate minDate = true -> validDate maxDate = true ->
  dayBefore minDate maxDate ->
  compareDate minDate (createPreviousDay maxDate) <> 1 /\
  compareDate (createNextDay minDate) maxDate <> 1.
Proof.
  intros Hmin Hmax Hlt. split; intros H; apply compareDate_after in H; revert H.
  - now apply before_createPreviousDay.
  - now apply createNextDay_before.
Qed.

Lemma mapM_limitEntry_again (lo hi : Date) :
  compareDate lo hi <> 1 ->
  forall (l : list (option Date)) (ds : list Date),
    mapM (limitEntry lo hi) l = Ok ds ->
    mapM (limitEntry lo hi) (map Some ds) = Ok ds.
Proof.
  intros Hle. induction l as [|o l IH]; intros ds H; cbn [mapM] in H.
  - injection H as <-. reflexivity.
  - destruct o as [d|]; cbn [limitEntry bind] in H; [|discriminate].
    destruct (mapM (limitEntry lo hi) l) as [ds'|]; cbn [bind] in H;
      [|discriminate].
    injection H as <-. cbn [map mapM limitEntry bind].
    rewrite (IH ds' eq_refl). cbn [bind].
    now rewrite limitDateRange_twice.
Qed.

(** X3: initial-value normalisation is idempotent: whenever it answers a
    value, for valid bounds with the minimum not after the maximum (and
    strictly before it in range mode), normalising that value again
    answers the same value. *)
Theorem getInitialDate_idempotent (p : CalendarProps) (now : Date)
    (defaultDate v : CalendarValueType) :
  validDate (minValue p) = true -> validDate (maxValue p) = true ->
  compareDate (minValue p) (maxValue p) <> 1 ->
  (type p = range -> dayBefore (minValue p) (maxValue p)) ->
  getInitialDate p now defaultDate = Ok v ->
  getInitialDate p now v = Ok v.
Proof.
  intros Hvmin Hvmax Hle Hrange H.
  destruct (match defaultDate with VNull => true | _ => false end) eqn:Enull.
  { destruct defaultDate; try discriminate. cbn in H. injection H as <-.
    reflexivity. }
  rewrite getInitialDate_cases in H by (destruct defaultDate; congruence).
  destruct (type p) eqn:Ht.
  - injection H as <-. rewrite getInitialDate_cases by discriminate.
    rewrite Ht. now rewrite limitDateRange_twice.
  - assert (Hds : exists ds, v = VArray (map Some ds) /\
              mapM (limitEntry (minValue p) (maxValue p)) (map Some ds) = Ok ds).
    { destruct defaultDate as [| |d|l].
      1-3: injection H as <-;
        exists [limitDateRange now (minValue p) (maxValue p)];
        split; [reflexivity|]; cbn [map mapM limitEntry bind];
        now rewrite limitDateRange_twice.
      destruct (mapM (limitEntry (minValue p) (maxValue p)) l) as [ds|] eqn:E;
        cbn [bind] in H; [|discriminate].
      injection H as <-. exists ds. split; [reflexivity|].
      now apply (mapM_limitEntry_again _ _ Hle l). }
    destruct Hds as [ds [-> E]].
    rewrite getInitialDate_cases by discriminate. rewrite Ht, E. reflexivity.
  - destruct (range_intervals _ _ Hvmin Hvmax (Hrange eq_refl)) as [Hlo Hhi].
    cbv zeta in H. injection H as <-.
    rewrite getInitialDate_cases by discriminate. rewrite Ht.
    cbv zeta. cbn [entry nth_error orElse].
    now rewrite !limitDateRange_twice.
Qed.

(** An instance in multiple mode, with entries on both sides of the
    bounds. *)
Lemma getInitialDate_idempotent_witness :
  getInitialDate (quarterProps multiple VUndefined) (ymd 2024 1 10)
    (VArray [Some (ymd 2024 0 1); Some (ymd 2024 1 20); Some (ymd 2024 2 31)])
  = Ok (VArray [Some (ymd 2024 0 1); Some (ymd 2024 1 20); Some (ymd 2024 2 31)]).
Proof.
  apply (getInitialDate_idempotent (quarterProps multiple VUndefined)
           (ymd 2024 1 10)
           (VArray [Some (ymd 2023 5 1); Some (ymd 2024 1 20);
                    Some (ymd 2024 11 25)])).
  - reflexivity.
  - reflexivity.
  - discriminate.
  - intros H; discriminate H.
  - reflexivity.
Defined.

(** X4: in range mode, for valid bounds with the minimum strictly before
    the maximum, normalisation of any raw default other than [null]
    answers a pair whose start lies between the minimum and the day before
    the maximum and whose end lies between the day after the minimum and
    the maximum: the start is before the maximum and the end after the
    minimum. *)
Theorem getInitialDate_range_room (p : CalendarProps) (now : Date)
    (defaultDate : CalendarValueType) :
  type p = range ->
  validDate (minValue p) = true -> validDate (maxValue p) = true ->
  dayBefore (minValue p) (maxValue p) ->
  defaultDate <> VNull ->
  exists startDay endDay : Date,
    getInitialDate p now defaultDate = Ok (VArray [Some startDay; Some endDay]) /\
    inRange (minValue p) (createPreviousDay (maxValue p)) startDay /\
    inRange (createNextDay (minValue p)) (maxValue p) endDay /\
    dayBefore startDay (maxValue p) /\ dayBefore (minValue p) endDay.
Proof.
  intros Ht Hvmin Hvmax Hlt Hnull.
  destruct (range_intervals _ _ Hvmin Hvmax Hlt) as [Hlo Hhi].
  rewrite getInitialDate_cases by assumption. rewrite Ht. cbv zeta.
  eexists; eexists. split; [reflexivity|].
  pose proof (limitDateRange_inRange
                (orElse (entry match defaultDate with VArray l => l | _ => [] end 0) now)
                _ _ Hlo) as Hs.
  pose proof (limitDateRange_inRange
                (orElse (entry match defaultDate with VArray l => l | _ => [] end 1) now)
                _ _ Hhi) as He.
  split; [exact Hs|]. split; [exact He|].
  pose proof (createPreviousDay_before (maxValue p)) as Hp.
  pose proof (createNextDay_after (minValue p)) as Hn.
  apply compareDate_before in Hp, Hn.
  destruct Hs as [_ Hs]. destruct He as [He _].
  split; apply compareDate_before.
  - clear Hlo Hhi He Hn. by_fields.
  - clear Hlo Hhi Hs Hp. by_fields.
Qed.

(** An instance: no default at all, today before the bounds. *)
Lemma getInitialDate_range_room_witness :
  exists startDay endDay : Date,
    getInitialDate (quarterProps range VUndefined) (ymd 2023 5 1) VUndefined
    = Ok (VArray [Some startDay; Some endDay]) /\
    inRange (ymd 2024 0 1) (createPreviousDay (ymd 2024 2 31)) startDay /\
    inRange (createNextDay (ymd 2024 0 1)) (ymd 2024 2 31) endDay /\
    dayBefore startDay (ymd 2024 2 31) /\ dayBefore (ymd 2024 0 1) endDay.
Proof.
  apply (getInitialDate_range_room (quarterProps range VUndefined)
           (ymd 2023 5 1) VUndefined).
  - reflexivity.
  - reflexivity.
  - reflexivity.
  - unfold dayBefore; cbn; lia.
  - discriminate.
Defined.

(* ------------------------------------------------------------------ *)
(** ** The month sequence, entry by entry *)

Lemma anchorAfter_fields (d : Date) (i : nat) :
  getDate (anchorAfter d i) = 1 /\
  0 <= getMonth (anchorAfter d i) <= 11 /\
  monthIndex (anchorAfter d i) = monthIndex d + Z.of_nat i /\
  timeOfDay (anchorAfter d i) = timeOfDay d.
Proof.
  unfold anchorAfter, monthIndex. cbn [getFullYear getMonth getDate timeOfDay].
  pose proof (Z.mod_pos_bound (12 * getFullYear d + getMonth d + Z.of_nat i) 12).
  pose proof (Z.div_mod (12 * getFullYear d + getMonth d + Z.of_nat i) 12).
  lia.
Qed.

(** A first-of-month date is settled by its month index and time of day. *)
Lemma first_of_month_eq (a b : Date) :
  getDate a = 1 -> getDate b = 1 ->
  0 <= getMonth a <= 11 -> 0 <= getMonth b <= 11 ->
  monthIndex a = monthIndex b -> timeOfDay a = timeOfDay b -> a = b.
Proof.
  destruct a as [ya ma da ta], b as [yb mb db tb]. unfold monthIndex.
  cbn [getFullYear getMonth getDate timeOfDay].
  intros -> -> Ha Hb Hi ->.
  assert (ya = yb) by lia. assert (ma = mb) by lia. subst. reflexivity.
Qed.

Lemma monthsFrom_length (n : nat) (cursor : Date) :
  List.length (monthsFrom cursor n) = n.
Proof.
  revert cursor. induction n as [|n IH]; intros cursor; cbn [monthsFrom List.length];
    [reflexivity | now rewrite IH].
Qed.

Lemma monthsFrom_nth (n : nat) :
  forall (cursor : Date) (i : nat),
    getDate cursor = 1 -> 0 <= getMonth cursor <= 11 -> (i < n)%nat ->
    nth_error (monthsFrom cursor n) i = Some (anchorAfter cursor i).
Proof.
  induction n as [|n IH]; intros cursor i Hd Hm Hi; [lia|].
  destruct (setMonth_next cursor Hd Hm) as (Hd' & Hm' & _ & Hidx & Ht).
  cbn [monthsFrom]. destruct i as [|i]; cbn [nth_error].
  - f_equal. destruct (anchorAfter_fields cursor 0) as (A1 & A2 & A3 & A4).
    apply first_of_month_eq; auto; lia.
  - rewrite IH by (auto; lia). f_equal.
    destruct (anchorAfter_fields (setMonth cursor (getMonth cursor + 1)) i)
      as (A1 & A2 & A3 & A4).
    destruct (anchorAfter_fields cursor (S i)) as (B1 & B2 & B3 & B4).
    apply first_of_month_eq; auto; try lia; congruence.
Qed.

(** The sequence is the run of anchors from the minimum's month on. *)
Lemma months_run (minValue maxValue : Date) :
  validDate minValue = true -> validDate maxValue = true ->
  compareDate minValue maxValue <> 1 ->
  exists l : list Date,
    months minValue maxValue = Some l /\
    Z.of_nat (List.length l) = monthIndex maxValue - monthIndex minValue + 1 /\
    forall i, (i < List.length l)%nat ->
              nth_error l i = Some (anchorAfter minValue i).
Proof.
  intros Hmin Hmax Hle.
  apply validDate_fields in Hmin as [Hmin _].
  apply validDate_fields in Hmax as [Hmax _].
  assert (Hidx : 0 <= monthIndex maxValue - monthIndex minValue).
  { unfold monthIndex. by_fields. }
  exists (monthsFrom (setDate minValue 1)
            (S (Z.to_nat (monthIndex maxValue - monthIndex minValue)))).
  split; [|split].
  - unfold months.
    rewrite (months_loop_run maxValue
               (Z.to_nat (monthIndex maxValue - monthIndex minValue)));
      auto.
    change (monthIndex (setDate minValue 1)) with (monthIndex minValue). lia.
  - rewrite monthsFrom_length. lia.
  - intros i Hi. rewrite monthsFrom_length in Hi.
    rewrite monthsFrom_nth; auto.
Qed.

(** X5: for valid bounds with the minimum not after the maximum the month
    sequence has one entry for each month from the minimum's to the
    maximum's, and its entry at index i is the first day of the month i
    months after the minimum's month, with the minimum's time of day. *)
Theorem months_anchors (minValue maxValue : Date) :
  validDate minValue = true -> validDate maxValue = true ->
  compareDate minValue maxValue <> 1 ->
  exists l : list Date,
    months minValue maxValue = Some l /\
    Z.of_nat (List.length l) = monthIndex maxValue - monthIndex minValue + 1 /\
    forall i, (i < List.length l)%nat ->
      exists anchor : Date,
        nth_error l i = Some anchor /\
        getDate anchor = 1 /\ 0 <= getMonth anchor <= 11 /\
        monthIndex anchor = monthIndex minValue + Z.of_nat i /\
        timeOfDay anchor = timeOfDay minValue.
Proof.
  intros Hmin Hmax Hle.
  destruct (months_run _ _ Hmin Hmax Hle) as (l & E & Hlen & Hnth).
  exists l. split; [exact E|]. split; [exact Hlen|].
  intros i Hi. exists (anchorAfter minValue i).
  split; [now apply Hnth | apply anchorAfter_fields].
Qed.

(** An instance across a year's end: four months. *)
Lemma months_anchors_witness :
  exists l : list Date,
    months (mkDate 2023 10 20 7200000) (ymd 2024 1 3) = Some l /\
    Z.of_nat (List.length l)
    = monthIndex (ymd 2024 1 3) - monthIndex (mkDate 2023 10 20 7200000) + 1 /\
    forall i, (i < List.length l)%nat ->
      exists anchor : Date,
        nth_error l i = Some anchor /\
        getDate anchor = 1 /\ 0 <= getMonth anchor <= 11 /\
        monthIndex anchor = monthIndex (mkDate 2023 10 20 7200000) + Z.of_nat i /\
        timeOfDay anchor = timeOfDay (mkDate 2023 10 20 7200000).
Proof.
  apply (months_anchors (mkDate 2023 10 20 7200000) (ymd 2024 1 3));
    [reflexivity | reflexivity | discriminate].
Defined.

Lemma anchorAfter_matches (minValue d : Date) (i : nat) :
  0 <= getMonth d <= 11 ->
  (compareYearMonth (anchorAfter minValue i) d = 0
   <-> monthIndex d = monthIndex minValue + Z.of_nat i).
Proof.
  intros Hd. destruct (anchorAfter_fields minValue i) as (_ & Hm & Hi & _).
  destruct (compareYearMonth_monthIndex (anchorAfter minValue i) d Hm Hd)
    as [_ H0].
  rewrite H0, Hi. lia.
Qed.

(** Where the month of a date within the bounds sits in the sequence. *)
Lemma months_locate (minValue maxValue d : Date) :
  validDate minValue = true -> validDate maxValue = true ->
  validDate d = true -> inRange minValue maxValue d ->
  exists (before : list Date) (month : Date) (after : list Date),
    months minValue maxValue = Some (before ++ month :: after) /\
    Z.of_nat (List.length before) = monthIndex d - monthIndex minValue /\
    compareYearMonth month d = 0 /\
    Forall (fun m => compareYearMonth m d <> 0) before /\
    Forall (fun m => compareYearMonth m d <> 0) after.
Proof.
  intros Hmin Hmax Hd [Hlo Hhi].
  assert (Hle : compareDate minValue maxValue <> 1) by by_fields.
  destruct (months_run _ _ Hmin Hmax Hle) as (l & E & Hlen & Hnth).
  apply validDate_fields in Hmin as [Hmin _].
  apply validDate_fields in Hmax as [Hmax _].
  apply validDate_fields in Hd as [Hd _].
  assert (Hk : 0 <= monthIndex d - monthIndex minValue
               <= monthIndex maxValue - monthIndex minValue).
  { unfold monthIndex. clear Hle. by_fields. }
  set (k := Z.to_nat (monthIndex d - monthIndex minValue)).
  assert (Hkl : (k < List.length l)%nat) by lia.
  pose proof (Hnth k Hkl) as Hat.
  destruct (nth_error_split l k Hat) as (before & after & -> & Hbl).
  exists before, (anchorAfter minValue k), after.
  split; [exact E|]. split; [lia|]. split; [apply anchorAfter_matches; auto; lia|].
  split; apply Forall_forall; intros x Hx;
    apply In_nth_error in Hx as [j Hj].
  - assert (Hjk : (j < k)%nat).
    { rewrite <- Hbl. apply nth_error_Some. congruence. }
    assert (Hx : nth_error (before ++ anchorAfter minValue k :: after) j = Some x).
    { rewrite nth_error_app1 by lia. exact Hj. }
    rewrite Hnth in Hx by lia. injection Hx as <-.
    rewrite anchorAfter_matches by auto. lia.
  - assert (Hjl : (j < List.length after)%nat).
    { apply nth_error_Some. congruence. }
    assert (Hx : nth_error (before ++ anchorAfter minValue k :: after) (S (k + j))
                 = Some x).
    { rewrite nth_error_app2 by lia.
      replace (S (k + j) - List.length before)%nat with (S j) by lia.
      exact Hj. }
    rewrite Hnth in Hx.
    + injection Hx as <-. rewrite anchorAfter_matches by auto. lia.
    + rewrite length_app. cbn [List.length]. lia.
Qed.

(** X6: for valid bounds, every valid date within the bounds has exactly
    one anchor of its year and month in the month sequence, at the index
    that counts the months from the minimum's month. *)
Theorem months_cover (minValue maxValue d : Date) :
  validDate minValue = true -> validDate maxValue = true ->
  validDate d = true -> inRange minValue maxValue d ->
  exists (before : list Date) (month : Date) (after : list Date),
    months minValue maxValue = Some (before ++ month :: after) /\
    Z.of_nat (List.length before) = monthIndex d - monthIndex minValue /\
    compareYearMonth month d = 0 /\
    Forall (fun m => compareYearMonth m d <> 0) before /\
    Forall (fun m => compareYearMonth m d <> 0) after.
Proof.
  intros Hmin Hmax Hd Hin.
  destruct (months_locate _ _ _ Hmin Hmax Hd Hin) as (before & month & after & H).
  exists before, month, after. exact H.
Qed.

(** An instance: 14 February 2024 in the first quarter of 2024. *)
Lemma months_cover_witness :
  exists (before : list Date) (month : Date) (after : list Date),
    months (ymd 2024 0 1) (ymd 2024 2 31) = Some (before ++ month :: after) /\
    Z.of_nat (List.length before)
    = monthIndex (ymd 2024 1 14) - monthIndex (ymd 2024 0 1) /\
    compareYearMonth month (ymd 2024 1 14) = 0 /\
    Forall (fun m => compareYearMonth m (ymd 2024 1 14) <> 0) before /\
    Forall (fun m => compareYearMonth m (ymd 2024 1 14) <> 0) after.
Proof.
  apply (months_cover (ymd 2024 0 1) (ymd 2024 2 31) (ymd 2024 1 14));
    [reflexivity | reflexivity | reflexivity | split; discriminate].
Defined.

(** The anchors miss every month outside the bounds. *)
Lemma months_miss (minValue maxValue d : Date) (l : list Date) :
  validDate minValue = true -> validDate maxValue = true ->
  compareDate minValue maxValue <> 1 ->
  0 <= getMonth d <= 11 ->
  monthIndex d < monthIndex minValue \/ monthIndex maxValue < monthIndex d ->
  months minValue maxValue = Some l ->
  Forall (fun m => compareYearMonth m d <> 0) l.
Proof.
  intros Hmin Hmax Hle Hd Hout E.
  destruct (months_run _ _ Hmin Hmax Hle) as (l' & E' & Hlen & Hnth).
  rewrite E in E'. injection E' as <-.
  apply Forall_forall. intros x Hx. apply In_nth_error in Hx as [j Hj].
  assert (Hjl : (j < List.length l)%nat) by (apply nth_error_Some; congruence).
  rewrite Hnth in Hj by assumption. injection Hj as <-.
  rewrite anchorAfter_matches by assumption. lia.
Qed.

(** X7: for valid bounds with the minimum not after the maximum, no
    anchor of the month sequence has the year and month of a date whose
    month lies before the minimum's month or after the maximum's; the
    sequence stays within the months of the bounds. *)
Theorem months_exclude (minValue maxValue d : Date) (l : list Date) :
  validDate minValue = true -> validDate maxValue = true ->
  compareDate minValue maxValue <> 1 ->
  0 <= getMonth d <= 11 ->
  monthIndex d < monthIndex minValue \/ monthIndex maxValue < monthIndex d ->
  months minValue maxValue = Some l ->
  Forall (fun m => compareYearMonth m d <> 0) l /\
  Forall (fun m => monthIndex minValue <= monthIndex m <= monthIndex maxValue) l.
Proof.
  intros Hmin Hmax Hle Hd Hout E.
  split; [now apply (months_miss minValue maxValue)|].
  destruct (months_run _ _ Hmin Hmax Hle) as (l' & E' & Hlen & Hnth).
  rewrite E in E'. injection E' as <-.
  apply Forall_forall. intros x Hx. apply In_nth_error in Hx as [j Hj].
  assert (Hjl : (j < List.length l)%nat) by (apply nth_error_Some; congruence).
  rewrite Hnth in Hj by assumption. injection Hj as <-.
  destruct (anchorAfter_fields minValue j) as (_ & _ & Hi & _). lia.
Qed.

(** An instance: April 2024 against the first quarter of 2024. *)
Lemma months_exclude_witness :
  Forall (fun m => compareYearMonth m (ymd 2024 3 5) <> 0) quarter /\
  Forall (fun m => monthIndex (ymd 2024 0 1) <= monthIndex m
                   <= monthIndex (ymd 2024 2 31)) quarter.
Proof.
  apply (months_exclude (ymd 2024 0 1) (ymd 2024 2 31) (ymd 2024 3 5) quarter);
    [reflexivity | reflexivity | discriminate | cbn; lia | right; cbn; lia
    | reflexivity].
Defined.

(* ------------------------------------------------------------------ *)
(** ** The selection engine, further *)

Lemma getDisabledDays_from (monthRefs : MonthRefs) :
  forall acc : list CalendarDayObject,
    fold_left
      (fun arr ref =>
         arr ++ match ref with
                | Some current => disabledDays current
                | None => []
                end)
      monthRefs acc
    = acc ++ flat_map (fun ref => match ref with
                                  | Some current => disabledDays current
                                  | None => []
                                  end) monthRefs.
Proof.
  induction monthRefs as [|ref refs IH]; intros acc; cbn [fold_left flat_map].
  - now rewrite app_nil_r.
  - rewrite IH, app_assoc. reflexivity.
Qed.

(** X8: the disabled days handed to the range scan are those of the
    mounted months, month after month in the order of the refs, each
    month's days in their own order; a ref without an instance adds
    nothing, and the days of two runs of refs are those of the first run
    followed by those of the second. *)
Theorem getDisabledDays_in_order (monthRefs moreRefs : MonthRefs) :
  getDisabledDays monthRefs
  = flat_map (fun ref => match ref with
                         | Some current => disabledDays current
                         | None => []
                         end) monthRefs /\
  getDisabledDays (monthRefs ++ moreRefs)
  = getDisabledDays monthRefs ++ getDisabledDays moreRefs /\
  getDisabledDays (None :: monthRefs) = getDisabledDays monthRefs.
Proof.
  unfold getDisabledDays. rewrite !getDisabledDays_from. cbn [app flat_map].
  repeat split. apply flat_map_app.
Qed.

(** X9: in range mode a tap starts a new selection [tappedDay] when
    there is no current value, when the current array has no start, and
    when it has an end already (a completed range); the disabled days are
    not consulted. *)
Theorem onDayClick_range_restart (p : CalendarProps) (monthRefs : MonthRefs)
    (date : Date) (st : State) :
  type p = range -> readonly p = false ->
  truthy (currentValue p) = false \/
  (exists l, currentValue p = VArray l /\
             (entry l 0 = None \/ entry l 1 <> None)) ->
  onDayClick p monthRefs (mkDay (Some date)) st
  = Ok (change (VArray [Some date]) st).
Proof.
  intros Ht Hr H. unfold onDayClick. cbn [value]. rewrite Hr, Ht.
  destruct H as [H|(l & -> & H)].
  - destruct (currentValue p); try discriminate; reflexivity.
  - destruct (entry l 0) as [startDay|]; [|reflexivity].
    destruct (entry l 1); [reflexivity|].
    destruct H as [H|H]; [discriminate | contradiction].
Qed.

(** An instance: a completed range and a tap inside it. *)
Lemma onDayClick_range_restart_witness :
  onDayClick (quarterProps range
                (VArray [Some (ymd 2024 0 10); Some (ymd 2024 0 20)]))
             januaryRefs (mkDay (Some (ymd 2024 0 16))) idle
  = Ok (change (VArray [Some (ymd 2024 0 16)]) idle).
Proof.
  apply (onDayClick_range_restart
           (quarterProps range
              (VArray [Some (ymd 2024 0 10); Some (ymd 2024 0 20)]))
           januaryRefs (ymd 2024 0 16) idle eq_refl eq_refl).
  right. exists [Some (ymd 2024 0 10); Some (ymd 2024 0 20)].
  split; [reflexivity | right; discriminate].
Defined.

Lemma filter_other_days_appended (dates : list Date) (date date' : Date) :
  Forall (fun x => ~ sameDay x date) dates -> sameDay date date' ->
  filter (fun x => negb (sameDayb x date')) (dates ++ [date]) = dates.
Proof.
  intros Hall Hsame. rewrite filter_app. cbn [filter].
  assert (E : sameDayb date date' = true) by now apply sameDayb_true.
  rewrite E. cbn [negb]. rewrite app_nil_r.
  apply filter_all. eapply Forall_impl; [|exact Hall].
  intros x Hx. destruct (sameDayb x date') eqn:Ex; [|reflexivity].
  apply sameDayb_true in Ex. exfalso. apply Hx.
  unfold sameDay in *. lia.
Qed.

(** X10: in multiple mode, toggling a day on and off again gives the list
    back: after a tap on a day that no entry of the list is day-equal to,
    and the owner handing the published list back, a tap on the same day
    (at any time of day) publishes the original list. *)
Theorem onDayClick_multiple_on_off (p : CalendarProps) (monthRefs : MonthRefs)
    (dates : list Date) (date date' : Date) (st : State) :
  type p = multiple -> readonly p = false ->
  currentValue p = VArray (map Some dates) ->
  Forall (fun x => ~ sameDay x date) dates ->
  sameDay date date' ->
  exists st1 : State,
    onDayClick p monthRefs (mkDay (Some date)) st = Ok st1 /\
    changeValueRef st1 = VArray (map Some (dates ++ [date])) /\
    onDayClick (withValue p (changeValueRef st1)) monthRefs
               (mkDay (Some date')) st1
    = Ok (change (VArray (map Some dates)) st1).
Proof.
  intros Ht Hr Hv Hall Hsame.
  exists (change (VArray (map Some (dates ++ [date]))) st).
  split; [|split; [reflexivity|]].
  - unfold onDayClick. cbn [value].
    rewrite Hr, Ht, Hv, filterOtherDays_dates. cbn [bind].
    rewrite filter_all.
    + rewrite Nat.eqb_refl. cbn [negb]. rewrite map_app. reflexivity.
    + eapply Forall_impl; [|exact Hall].
      intros x Hx. destruct (sameDayb x date) eqn:E; [|reflexivity].
      apply sameDayb_true in E. contradiction.
  - unfold onDayClick, withValue.
    cbn [value readonly type currentValue change changeValueRef].
    rewrite Hr, Ht, filterOtherDays_dates. cbn [bind].
    rewrite (filter_other_days_appended dates date date' Hall Hsame).
    rewrite !length_map, length_app. cbn [List.length].
    destruct (Nat.eqb_spec (List.length dates) (List.length dates + 1));
      [lia | reflexivity].
Qed.

(** An instance: the 9th toggled on at midnight and off at one o'clock. *)
Lemma onDayClick_multiple_on_off_witness :
  exists st1 : State,
    onDayClick (quarterProps multiple
                  (VArray (map Some [ymd 2024 0 5; ymd 2024 1 1])))
               quarterRefs (mkDay (Some (ymd 2024 0 9))) idle = Ok st1 /\
    changeValueRef st1
    = VArray (map Some ([ymd 2024 0 5; ymd 2024 1 1] ++ [ymd 2024 0 9])) /\
    onDayClick (withValue (quarterProps multiple
                             (VArray (map Some [ymd 2024 0 5; ymd 2024 1 1])))
                          (changeValueRef st1))
               quarterRefs (mkDay (Some (mkDate 2024 0 9 3600000))) st1
    = Ok (change (VArray (map Some [ymd 2024 0 5; ymd 2024 1 1])) st1).
Proof.
  apply (onDayClick_multiple_on_off
           (quarterProps multiple (VArray (map Some [ymd 2024 0 5; ymd 2024 1 1])))
           quarterRefs [ymd 2024 0 5; ymd 2024 1 1] (ymd 2024 0 9)
           (mkDate 2024 0 9 3600000) idle eq_refl eq_refl eq_refl).
  - repeat constructor; unfold sameDay; cbn; lia.
  - unfold sameDay; cbn; lia.
Defined.

(** X11: in range mode two taps make a range: with no current value, a
    tap on a day publishes [a]; once the owner has handed that value back,
    a tap on a later day b with no disabled day strictly between publishes
    [a, b], and a tap on an earlier day c publishes [c] instead. *)
Theorem onDayClick_range_two_taps (p : CalendarProps) (monthRefs : MonthRefs)
    (ds : list Date) (a b c : Date) (st : State) :
  type p = range -> readonly p = false ->
  truthy (currentValue p) = false ->
  map value (getDisabledDays monthRefs) = map Some ds ->
  Forall (fun x => ~ strictlyBetween a b x) ds ->
  dayBefore a b -> dayBefore c a ->
  exists st1 : State,
    onDayClick p monthRefs (mkDay (Some a)) st = Ok st1 /\
    changeValueRef st1 = VArray [Some a] /\
    onDayClick (withValue p (changeValueRef st1)) monthRefs (mkDay (Some b)) st1
    = Ok (change (VArray [Some a; Some b]) st1) /\
    onDayClick (withValue p (changeValueRef st1)) monthRefs (mkDay (Some c)) st1
    = Ok (change (VArray [Some c]) st1).
Proof.
  intros Ht Hr Hv Hmap Hall Hab Hca.
  apply compareDate_after in Hab. apply compareDate_before in Hca.
  exists (change (VArray [Some a]) st).
  split; [|split; [reflexivity|split]].
  - unfold onDayClick. cbn [value]. rewrite Hr, Ht.
    destruct (currentValue p); try discriminate; reflexivity.
  - unfold onDayClick, withValue.
    cbn [value readonly type currentValue change changeValueRef entry nth_error].
    rewrite Hr, Ht, Hab. cbn [Z.eqb Pos.eqb].
    rewrite (getDisabledDate_none _ _ _ _ Hmap Hall). reflexivity.
  - unfold onDayClick, withValue.
    cbn [value readonly type currentValue change changeValueRef entry nth_error].
    rewrite Hr, Ht, Hca. reflexivity.
Qed.

(** An instance: the 10th, then the 14th, with the 5th, 15th and 17th
    disabled; or the 3rd instead of the 14th. *)
Lemma onDayClick_range_two_taps_witness :
  exists st1 : State,
    onDayClick (quarterProps range VUndefined) januaryRefs
               (mkDay (Some (ymd 2024 0 10))) idle = Ok st1 /\
    changeValueRef st1 = VArray [Some (ymd 2024 0 10)] /\
    onDayClick (withValue (quarterProps range VUndefined) (changeValueRef st1))
               januaryRefs (mkDay (Some (ymd 2024 0 14))) st1
    = Ok (change (VArray [Some (ymd 2024 0 10); Some (ymd 2024 0 14)]) st1) /\
    onDayClick (withValue (quarterProps range VUndefined) (changeValueRef st1))
               januaryRefs (mkDay (Some (ymd 2024 0 3))) st1
    = Ok (change (VArray [Some (ymd 2024 0 3)]) st1).
Proof.
  apply (onDayClick_range_two_taps (quarterProps range VUndefined) januaryRefs
           [ymd 2024 0 5; ymd 2024 0 15; ymd 2024 0 17]
           (ymd 2024 0 10) (ymd 2024 0 14) (ymd 2024 0 3) idle
           eq_refl eq_refl eq_refl eq_refl).
  - repeat constructor; intros [H1 H2]; discriminate.
  - unfold dayBefore; cbn; lia.
  - unfold dayBefore; cbn; lia.
Defined.

(** X12: whatever the mode, a tap that does not throw either leaves the
    state as it is or reports exactly one value, which it also records as
    the last value changed from within; it never touches the subtitle or
    the scroll offsets. *)
Theorem onDayClick_frame (p : CalendarProps) (monthRefs : MonthRefs)
    (tapped : CalendarDayObject) (st st' : State) :
  onDayClick p monthRefs tapped st = Ok st' ->
  subtitle st' = subtitle st /\
  bodyScrollTop st' = bodyScrollTop st /\
  bodyScrollTopRef st' = bodyScrollTopRef st /\
  (st' = st \/
   exists v, changeValueRef st' = v /\ events st' = OnChange v :: events st /\
             v <> VNull /\ v <> VUndefined).
Proof.
  intros H.
  assert (Hc : st' = st \/
               exists v, st' = change v st /\ v <> VNull /\ v <> VUndefined).
  { unfold onDayClick in H.
    destruct (value tapped) as [date|]; [|injection H as <-; now left].
    destruct (readonly p); [injection H as <-; now left|].
    right.
    destruct (type p).
    - injection H as <-. eexists; repeat split; discriminate.
    - destruct (currentValue p) as [| |d|dates]; try discriminate;
        try (injection H as <-; eexists; repeat split; discriminate).
      destruct (filterOtherDays dates date) as [newDates|]; cbn [bind] in H;
        [|discriminate].
      destruct (negb _); injection H as <-; eexists; repeat split; discriminate.
    - destruct (currentValue p) as [| |d|l]; try discriminate;
        try (injection H as <-; eexists; repeat split; discriminate).
      destruct (entry l 0) as [startDay|];
        [|injection H as <-; eexists; repeat split; discriminate].
      destruct (entry l 1);
        [injection H as <-; eexists; repeat split; discriminate|].
      destruct (compareDate date startDay =? 1).
      + destruct (getDisabledDate _ startDay date) as [[dd|]|];
          cbn [bind] in H; try discriminate;
          injection H as <-; eexists; repeat split; discriminate.
      + destruct (compareDate date startDay =? -1);
          injection H as <-; eexists; repeat split; discriminate. }
  destruct Hc as [->|(v & -> & Hn & Hu)].
  - repeat split. now left.
  - repeat split. right. exists v. repeat split; assumption.
Qed.

(** An instance: a tap in single mode. *)
Lemma onDayClick_frame_witness :
  subtitle (change (VDate (ymd 2024 0 20)) idle) = subtitle idle /\
  bodyScrollTop (change (VDate (ymd 2024 0 20)) idle) = bodyScrollTop idle /\
  bodyScrollTopRef (change (VDate (ymd 2024 0 20)) idle) = bodyScrollTopRef idle /\
  (change (VDate (ymd 2024 0 20)) idle = idle \/
   exists v, changeValueRef (change (VDate (ymd 2024 0 20)) idle) = v /\
             events (change (VDate (ymd 2024 0 20)) idle)
             = OnChange v :: events idle /\
             v <> VNull /\ v <> VUndefined).
Proof.
  apply (onDayClick_frame (quarterProps single VUndefined) quarterRefs
           (mkDay (Some (ymd 2024 0 20))) idle).
  reflexivity.
Defined.

(* ------------------------------------------------------------------ *)
(** ** Passive sync, further *)

Lemma sum_from (l : list Z) (acc : Z) :
  fold_left (fun a b => a + b) l acc = acc + fold_left (fun a b => a + b) l 0.
Proof.
  revert acc. induction l as [|h l IH]; intros acc; cbn [fold_left]; [lia|].
  rewrite (IH (acc + h)), (IH (0 + h)). lia.
Qed.

Lemma firstn_prefix {A : Type} (pre rest : list A) :
  firstn (List.length pre) (pre ++ rest) = pre.
Proof.
  induction pre as [|x pre IH]; cbn [List.length app firstn];
    [now destruct rest | now rewrite IH].
Qed.

Lemma visibleAt_head (top bottom : Z) (pre : list Z) (h : Z) (rest : list Z) :
  visibleAt top bottom (pre ++ h :: rest) (List.length pre) <->
  ((fold_left (fun a b => a + b) pre 0 <=? bottom)
   && (fold_left (fun a b => a + b) pre 0 + h >=? top) = true).
Proof.
  unfold visibleAt, monthTop. rewrite firstn_prefix.
  rewrite nth_error_app2 by lia. rewrite Nat.sub_diag. cbn [nth_error].
  rewrite andb_true_iff, Z.leb_le, Z.geb_le. split.
  - intros (h' & E & H1 & H2). injection E as <-. lia.
  - intros [H1 H2]. exists h. repeat split; [assumption | lia].
Qed.

(** What the loop of [onScroll] answers, started after the months [pre]. *)
Lemma onScroll_loop_from (top bottom : Z) (rest : list Z) :
  forall pre : list Z,
    match onScroll_loop top bottom rest (List.length pre)
                        (fold_left (fun a b => a + b) pre 0) with
    | Some i =>
        (List.length pre <= i)%nat /\
        visibleAt top bottom (pre ++ rest) i /\
        forall j, (List.length pre <= j < i)%nat ->
                  ~ visibleAt top bottom (pre ++ rest) j
    | None =>
        forall j, (List.length pre <= j)%nat ->
                  ~ visibleAt top bottom (pre ++ rest) j
    end.
Proof.
  induction rest as [|h rest IH]; intros pre; cbn [onScroll_loop].
  - intros j Hj (h & E & _). rewrite app_nil_r in E.
    assert (j < List.length pre)%nat by (apply nth_error_Some; congruence).
    lia.
  - pose proof (visibleAt_head top bottom pre h rest) as Hhead.
    destruct ((fold_left (fun a b => a + b) pre 0 <=? bottom)
              && (fold_left (fun a b => a + b) pre 0 + h >=? top)) eqn:Ev.
    + split; [lia|]. split; [now apply Hhead|]. intros j Hj; lia.
    + specialize (IH (pre ++ [h])).
      rewrite length_app, fold_left_app in IH. cbn [List.length fold_left] in IH.
      rewrite Nat.add_1_r, <- app_assoc in IH. cbn [app] in IH.
      assert (Hnot : ~ visibleAt top bottom (pre ++ h :: rest) (List.length pre)).
      { intros Hv. apply Hhead in Hv. discriminate. }
      destruct (onScroll_loop top bottom rest (S (List.length pre))
                  (fold_left (fun a b => a + b) pre 0 + h)) as [i|].
      * destruct IH as (Hi & Hv & Hmin). split; [lia|]. split; [exact Hv|].
        intros j Hj. destruct (Nat.eq_dec j (List.length pre)) as [->|Hne];
          [exact Hnot | apply Hmin; lia].
      * intros j Hj. destruct (Nat.eq_dec j (List.length pre)) as [->|Hne];
          [exact Hnot | apply IH; lia].
Qed.

(** X13: the scan of passive sync answers the least index whose month,
    from its running top to its top plus its height, meets the visible
    band, both ends included; it answers none exactly when no month
    does. *)
Theorem onScroll_loop_first_match (top bottom : Z) (heights : list Z) :
  (forall i,
      onScroll_loop top bottom heights 0 0 = Some i <->
      visibleAt top bottom heights i /\
      forall j, (j < i)%nat -> ~ visibleAt top bottom heights j) /\
  (onScroll_loop top bottom heights 0 0 = None <->
   forall j, ~ visibleAt top bottom heights j).
Proof.
  pose proof (onScroll_loop_from top bottom heights []) as H.
  cbn [List.length fold_left app] in H.
  destruct (onScroll_loop top bottom heights 0 0) as [k|].
  - destruct H as (_ & Hv & Hmin). split.
    + intros i. split.
      * intros E. injection E as <-. split; [exact Hv|].
        intros j Hj. apply Hmin. lia.
      * intros [Hvi Hmini]. f_equal.
        destruct (Nat.lt_trichotomy k i) as [Hlt|[->|Hgt]]; [|reflexivity|].
        -- exfalso. exact (Hmini k Hlt Hv).
        -- exfalso. apply (Hmin i); [lia | exact Hvi].
    + split; [discriminate|]. intros Hnone. exfalso. exact (Hnone k Hv).
  - split.
    + intros i. split; [discriminate|].
      intros [Hvi _]. exfalso. apply (H i); [lia | exact Hvi].
    + split; [|reflexivity]. intros _ j. apply H. lia.
Qed.

(** An instance: offset 500 and a band down to 900 over three months 300
    high: the second month is the first to meet the band. *)
Lemma onScroll_loop_first_match_witness :
  onScroll_loop 500 900 [300; 300; 300] 0 0 = Some 1%nat.
Proof.
  apply (proj2 (proj1 (onScroll_loop_first_match 500 900 [300; 300; 300]) 1%nat)).
  split.
  - exists 300. unfold monthTop; cbn. repeat split; lia.
  - intros j Hj (h & E & H1 & H2).
    assert (j = 0%nat) by lia. subst j.
    unfold monthTop in *; cbn in *. injection E as <-. lia.
Defined.

Lemma onScroll_loop_finds (top bottom : Z) (heights : list Z) :
  forall (i : nat) (height : Z),
    Forall (fun h => 0 <= h) heights -> heights <> [] ->
    height <= bottom -> top <= bottom ->
    top <= height + fold_left (fun a b => a + b) heights 0 ->
    exists k, onScroll_loop top bottom heights i height = Some k.
Proof.
  induction heights as [|h rest IH]; intros i height Hpos Hne Hb Htb Hsum;
    [congruence|].
  inversion Hpos as [|? ? Hh Hrest]; subst.
  cbn [onScroll_loop fold_left] in *. rewrite sum_from in Hsum.
  destruct (Z.leb_spec height bottom); [|lia].
  destruct (Z.geb_spec (height + h) top); cbn [andb]; [eexists; reflexivity|].
  apply IH; auto; try lia.
  intros ->. cbn [fold_left] in Hsum. lia.
Qed.

Lemma monthTop_bounds (heights : list Z) :
  Forall (fun h => 0 <= h) heights ->
  forall j, 0 <= monthTop heights j <= fold_left (fun a b => a + b) heights 0.
Proof.
  unfold monthTop. induction 1 as [|h l Hh _ IH]; intros j.
  - rewrite firstn_nil. cbn [fold_left]. lia.
  - destruct j as [|j]; cbn [firstn fold_left].
    + rewrite sum_from. specialize (IH 0%nat). cbn [firstn fold_left] in IH. lia.
    + rewrite (sum_from (firstn j l)), (sum_from l). specialize (IH j). lia.
Qed.

(** X14: on safe integers, where the sums of the code are the exact ones:
    when the months are mounted and none has a negative height, the list
    of months is not empty, the offset, the viewport height, the bottom of
    the visible band and the sum of the heights are safe integers, and the
    viewport height and the bottom of the band are not negative, then
    every height and every running top is a safe integer, and a passive
    sync that is not skipped as scroll bounce always finds a month and
    publishes its subtitle. *)
Theorem onScroll_finds_a_month (p : CalendarProps) (months : list Date)
    (monthRefs : MonthRefs) (body : Body) (st : State) (heights : list Z) :
  monthHeights months monthRefs = Ok heights ->
  months <> [] ->
  Forall (fun h => 0 <= h) heights ->
  0 <= rectHeight body -> 0 <= scrollTop body + rectHeight body ->
  isSafeInteger (scrollTop body) -> isSafeInteger (rectHeight body) ->
  isSafeInteger (scrollTop body + rectHeight body) ->
  isSafeInteger (fold_left (fun a b => a + b) heights 0) ->
  (scrollTop body + rectHeight body >? fold_left (fun a b => a + b) heights 0)
    && (scrollTop body >? 0) = false ->
  Forall isSafeInteger heights /\
  (forall j, isSafeInteger (monthTop heights j)) /\
  exists (i : nat) (currentMonth : CalendarMonthInstance),
    onScroll_loop (scrollTop body) (scrollTop body + rectHeight body)
                  heights 0 0 = Some i /\
    monthAt monthRefs i = Ok currentMonth /\
    onScroll p months monthRefs body st
    = Ok (setSubtitle (subtitleRender p (getValue currentMonth)) st).
Proof.
  intros Hh Hne Hpos Hrect Hbottom Hstop Hsrect Hsbottom Hssum Hguard.
  destruct (mapM_seq_defined _ _ _ _ Hh) as [Hlen Hall].
  pose proof (monthTop_bounds heights Hpos) as Htops.
  assert (Hsum : 0 <= fold_left (fun a b => a + b) heights 0)
    by (specialize (Htops 0%nat); lia).
  split; [|split].
  { apply Forall_forall. intros h Hin.
    apply In_nth_error in Hin as [j Hj].
    pose proof (Htops j) as Hj0. pose proof (Htops (S j)) as Hj1.
    assert (E : monthTop heights (S j) = monthTop heights j + h).
    { unfold monthTop. apply nth_error_split in Hj as (l1 & l2 & -> & <-).
      rewrite firstn_prefix.
      replace (S (List.length l1)) with (List.length (l1 ++ [h]))
        by (rewrite length_app; cbn [List.length]; lia).
      replace (l1 ++ h :: l2) with ((l1 ++ [h]) ++ l2)
        by (rewrite <- app_assoc; reflexivity).
      rewrite firstn_prefix, fold_left_app. reflexivity. }
    unfold isSafeInteger in *. lia. }
  { intros j. specialize (Htops j). unfold isSafeInteger in *. lia. }
  destruct (onScroll_loop_finds (scrollTop body)
              (scrollTop body + rectHeight body) heights 0 0) as [i Hi]; auto.
  - intros ->. destruct months; [congruence | discriminate].
  - lia.
  - apply andb_false_iff in Hguard as [Hg|Hg];
      [destruct (Z.gtb_spec (scrollTop body + rectHeight body)
                   (fold_left (fun a b => a + b) heights 0))
      | destruct (Z.gtb_spec (scrollTop body) 0)]; try discriminate; lia.
  - pose proof (onScroll_loop_index _ _ _ _ _ _ Hi) as Hidx.
    destruct (Hall i) as [h Hm]; [lia|].
    destruct (monthAt monthRefs i) as [currentMonth|] eqn:E;
      cbn [bind] in Hm; [|discriminate].
    exists i, currentMonth. split; [exact Hi|]. split; [exact E|].
    unfold onScroll. rewrite Hh. cbn [bind]. rewrite Hguard, Hi, E.
    reflexivity.
Qed.

(** An instance: the top of the three-month calendar. *)
Lemma onScroll_finds_a_month_witness :
  Forall isSafeInteger [300; 300; 300] /\
  (forall j, isSafeInteger (monthTop [300; 300; 300] j)) /\
  exists (i : nat) (currentMonth : CalendarMonthInstance),
    onScroll_loop 0 (0 + 2000) [300; 300; 300] 0 0 = Some i /\
    monthAt quarterRefs i = Ok currentMonth /\
    onScroll (quarterProps single VUndefined) quarter quarterRefs
             (mkBody true 0 2000 0) idle
    = Ok (setSubtitle (subtitleRender (quarterProps single VUndefined)
                                      (getValue currentMonth)) idle).
Proof.
  apply (onScroll_finds_a_month (quarterProps single VUndefined) quarter
           quarterRefs (mkBody true 0 2000 0) idle [300; 300; 300]).
  - reflexivity.
  - discriminate.
  - repeat constructor; lia.
  - cbn; lia.
  - cbn; lia.
  - unfold isSafeInteger, MAX_SAFE_INTEGER; cbn; lia.
  - unfold isSafeInteger, MAX_SAFE_INTEGER; cbn; lia.
  - unfold isSafeInteger, MAX_SAFE_INTEGER; cbn; lia.
  - unfold isSafeInteger, MAX_SAFE_INTEGER; cbn; lia.
  - reflexivity.
Defined.

(** X15: a passive sync that does not throw either leaves the state as it
    is or sets the subtitle, once; it never moves the scroll offset and
    never reports a value. *)
Theorem onScroll_frame (p : CalendarProps) (months : list Date)
    (monthRefs : MonthRefs) (body : Body) (st st' : State) :
  onScroll p months monthRefs body st = Ok st' ->
  (st' = st \/ exists s, st' = setSubtitle s st) /\
  bodyScrollTop st' = bodyScrollTop st /\
  bodyScrollTopRef st' = bodyScrollTopRef st /\
  changeValueRef st' = changeValueRef st.
Proof.
  intros H.
  assert (Hc : st' = st \/ exists s, st' = setSubtitle s st).
  { unfold onScroll in H.
    destruct (monthHeights months monthRefs) as [heights|]; cbn [bind] in H;
      [|discriminate].
    destruct (_ && _); [injection H as <-; now left|].
    destruct (onScroll_loop _ _ heights 0 0) as [i|];
      [|injection H as <-; now left].
    destruct (monthAt monthRefs i) as [currentMonth|]; cbn [bind] in H;
      [|discriminate].
    injection H as <-. right. eexists. reflexivity. }
  split; [exact Hc|].
  destruct Hc as [->|[s ->]]; repeat split.
Qed.

(** An instance: the bounce scenario, which leaves the state as it is. *)
Lemma onScroll_frame_witness :
  (idle = idle \/ exists s, idle = setSubtitle s idle) /\
  bodyScrollTop idle = bodyScrollTop idle /\
  bodyScrollTopRef idle = bodyScrollTopRef idle /\
  changeValueRef idle = changeValueRef idle.
Proof.
  apply (onScroll_frame (quarterProps single VUndefined) quarter quarterRefs
           (mkBody true 0 800 500) idle idle).
  reflexivity.
Defined.

Lemma mapM_seq_throw {B : Type} (f : nat -> Res B) (n : nat) :
  forall s i : nat,
    (s <= i < s + n)%nat -> f i = Throw -> mapM f (seq s n) = Throw.
Proof.
  induction n as [|n IH]; intros s i Hi Hf; [lia|].
  cbn [seq mapM]. destruct (Nat.eq_dec i s) as [->|Hne].
  - rewrite Hf. reflexivity.
  - destruct (f s); [|reflexivity]. cbn [bind].
    rewrite (IH (S s) i) by (auto; lia). reflexivity.
Qed.

(** X16: passive sync reads the height of every month of the sequence
    before anything else: when the ref of one of them is missing or holds
    no instance it throws, also where the bounce guard or an earlier match
    would have made that month irrelevant. *)
Theorem onScroll_unmounted_month (p : CalendarProps) (months : list Date)
    (monthRefs : MonthRefs) (body : Body) (st : State) (i : nat) :
  (i < List.length months)%nat ->
  monthAt monthRefs i = Throw ->
  onScroll p months monthRefs body st = Throw.
Proof.
  intros Hi Hm. unfold onScroll, monthHeights.
  rewrite (mapM_seq_throw _ _ 0 i); [reflexivity | lia |].
  rewrite Hm. reflexivity.
Qed.

(** An instance: the last of three months not mounted yet, the first one
    filling the viewport. *)
Lemma onScroll_unmounted_month_witness :
  onScroll (quarterProps single VUndefined) quarter
           [Some (mkMonth 300 (ymd 2024 0 1) (fun _ => 0) []);
            Some (mkMonth 300 (ymd 2024 1 1) (fun _ => 0) []); None]
           (mkBody true 0 200 0) idle
  = Throw.
Proof.
  apply (onScroll_unmounted_month (quarterProps single VUndefined) quarter
           [Some (mkMonth 300 (ymd 2024 0 1) (fun _ => 0) []);
            Some (mkMonth 300 (ymd 2024 1 1) (fun _ => 0) []); None]
           (mkBody true 0 200 0) idle 2).
  - cbn. lia.
  - reflexivity.
Defined.

(* ------------------------------------------------------------------ *)
(** ** Active navigation, further *)

Lemma scrollToDate_some_no_match (p : CalendarProps) (monthRefs : MonthRefs)
    (body : Body) (target : Date) (st : State) (months : list Date) :
  forall index : nat,
    Forall (fun m => compareYearMonth m target <> 0) months ->
    scrollToDate_some p months index monthRefs body (Some target) st = Ok st.
Proof.
  induction months as [|m months IH]; intros index Hall;
    cbn [scrollToDate_some]; [reflexivity|].
  inversion Hall as [|? ? Hm Hrest]; subst.
  destruct (Z.eqb_spec (compareYearMonth m target) 0); [contradiction|].
  now apply IH.
Qed.

(** X17: navigation to a date whose year and month no anchor of the month
    list has does nothing: the state is returned as it is, no subtitle is
    published and no offset applied, whether or not the months are
    mounted. *)
Theorem scrollToDate_no_match (p : CalendarProps) (months : list Date)
    (monthRefs : MonthRefs) (body : Body) (target : Date) (st : State) :
  Forall (fun m => compareYearMonth m target <> 0) months ->
  scrollToDate p months monthRefs body (Some target) st = Ok st /\
  scrollIntoView p months monthRefs body (VArray [Some target]) st = Ok st.
Proof.
  intros Hall.
  assert (E : scrollToDate p months monthRefs body (Some target) st = Ok st)
    by now apply scrollToDate_some_no_match.
  split; [exact E|].
  unfold scrollIntoView. cbn [truthy entry nth_error].
  destruct (type p); exact E.
Qed.

(** An instance: 5 April 2024 against the three months of the quarter,
    none of them mounted. *)
Lemma scrollToDate_no_match_witness :
  scrollToDate (quarterProps single VUndefined) quarter [] (mkBody true 0 800 0)
               (Some (ymd 2024 3 5)) idle = Ok idle /\
  scrollIntoView (quarterProps single VUndefined) quarter [] (mkBody true 0 800 0)
                 (VArray [Some (ymd 2024 3 5)]) idle = Ok idle.
Proof.
  apply (scrollToDate_no_match (quarterProps single VUndefined) quarter []
           (mkBody true 0 800 0) (ymd 2024 3 5) idle).
  repeat constructor; discriminate.
Defined.

(** X18: on a match with the body mounted, navigation publishes the
    subtitle and then applies the offset the month answers, less the top
    of the body, plus the body's scroll offset: once when that equals the
    offset last seen by the scroll handler, and otherwise after applying
    the last seen offset again first.  Either way the offset ends at the
    new value; the offset last seen and the last value changed from within
    stay as they were. *)
Theorem scrollToDate_two_steps (p : CalendarProps) (monthRefs : MonthRefs)
    (body : Body) (target month : Date) (before after : list Date)
    (currentMonth : CalendarMonthInstance) (st : State) :
  Forall (fun m => compareYearMonth m target <> 0) before ->
  compareYearMonth month target = 0 ->
  monthAt monthRefs (List.length before) = Ok currentMonth ->
  bodyMounted body = true ->
  let label := subtitleRender p (getValue currentMonth) in
  let offset := getScrollTop currentMonth label - rectTop body + scrollTop body in
  exists st' : State,
    scrollToDate p (before ++ month :: after) monthRefs body (Some target) st
    = Ok st' /\
    events st'
    = (if bodyScrollTopRef st =? offset
       then [SetBodyScrollTop offset]
       else [SetBodyScrollTop offset; SetBodyScrollTop (bodyScrollTopRef st)])
      ++ SetSubtitle label :: events st /\
    subtitle st' = label /\ bodyScrollTop st' = offset /\
    bodyScrollTopRef st' = bodyScrollTopRef st /\
    changeValueRef st' = changeValueRef st.
Proof.
  intros Hbefore Hmonth Hat Hmounted label offset.
  unfold scrollToDate.
  rewrite (scrollToDate_some_match p monthRefs body target month after
             currentMonth st before 0 Hbefore Hmonth Hat).
  cbv zeta. rewrite Hmounted. fold label. fold offset.
  eexists. split; [reflexivity|].
  destruct (bodyScrollTopRef st =? offset); repeat split.
Qed.

(** An instance: February in the three-month calendar, top of the body at
    10, offset last seen 0. *)
Lemma scrollToDate_two_steps_witness :
  exists st' : State,
    scrollToDate (quarterProps single VUndefined)
                 ([ymd 2024 0 1] ++ ymd 2024 1 1 :: [ymd 2024 2 1]) quarterRefs
                 (mkBody true 10 800 0) (Some (ymd 2024 1 14)) idle
    = Ok st' /\
    events st'
    = [SetBodyScrollTop (-10); SetBodyScrollTop 0]
      ++ SetSubtitle (NodeText "2024年2月") :: events idle /\
    subtitle st' = NodeText "2024年2月" /\ bodyScrollTop st' = -10 /\
    bodyScrollTopRef st' = bodyScrollTopRef idle /\
    changeValueRef st' = changeValueRef idle.
Proof.
  apply (scrollToDate_two_steps (quarterProps single VUndefined) quarterRefs
           (mkBody true 10 800 0) (ymd 2024 1 14) (ymd 2024 1 1)
           [ymd 2024 0 1] [ymd 2024 2 1]
           (mkMonth 300 (ymd 2024 1 1) (fun _ => 0) []) idle).
  - constructor; [discriminate | constructor].
  - reflexivity.
  - reflexivity.
  - reflexivity.
Defined.

(* ------------------------------------------------------------------ *)
(** ** Mount and the effect on mode and bounds *)

Lemma createPreviousDay_valid (d : Date) :
  validDate d = true -> validDate (createPreviousDay d) = true.
Proof.
  intros Hd. apply validDate_fields in Hd as [Hm Hdd].
  pose proof (daysInMonth_bounds (getFullYear d) (getMonth d - 1)).
  unfold createPreviousDay, validDate.
  destruct (Z.ltb_spec 1 (getDate d)); [|destruct (Z.ltb_spec 0 (getMonth d))];
    cbn [getFullYear getMonth getDate];
    rewrite ?andb_true_iff, ?Z.leb_le; try lia.
  repeat split; try lia. change (daysInMonth (getFullYear d - 1) 11) with 31. lia.
Qed.

Lemma limitDateRange_valid (date lo hi : Date) :
  validDate date = true -> validDate lo = true -> validDate hi = true ->
  validDate (limitDateRange date lo hi) = true.
Proof.
  intros Hd Hlo Hhi. unfold limitDateRange.
  destruct (compareDate date lo =? -1); [assumption|].
  destruct (compareDate date hi =? 1); assumption.
Qed.

(** Navigation to a valid date within the bounds finds the month of the
    date among the mounted months. *)
Lemma scrollToDate_locates (p : CalendarProps) (ms : list Date)
    (monthRefs : MonthRefs) (body : Body) (target : Date) (st : State) :
  validDate (minValue p) = true -> validDate (maxValue p) = true ->
  validDate target = true -> inRange (minValue p) (maxValue p) target ->
  months (minValue p) (maxValue p) = Some ms ->
  (forall i, (i < List.length ms)%nat -> exists m, monthAt monthRefs i = Ok m) ->
  exists (i : nat) (currentMonth : CalendarMonthInstance) (st' : State),
    Z.of_nat i = monthIndex target - monthIndex (minValue p) /\
    monthAt monthRefs i = Ok currentMonth /\
    scrollToDate p ms monthRefs body (Some target) st = Ok st' /\
    subtitle st' = subtitleRender p (getValue currentMonth) /\
    (bodyMounted body = true ->
     bodyScrollTop st'
     = getScrollTop currentMonth (subtitleRender p (getValue currentMonth))
       - rectTop body + scrollTop body).
Proof.
  intros Hmin Hmax Ht Hin Hms Hrefs.
  destruct (months_locate _ _ _ Hmin Hmax Ht Hin)
    as (before & month & after & E & Hlen & Hmatch & Hbefore & _).
  rewrite Hms in E. injection E as ->.
  destruct (Hrefs (List.length before)) as [currentMonth Hat].
  { rewrite length_app. cbn [List.length]. lia. }
  exists (List.length before), currentMonth. eexists.
  split; [exact Hlen|]. split; [exact Hat|].
  split.
  - unfold scrollToDate.
    apply (scrollToDate_some_match p monthRefs body target month after
             currentMonth st before 0 Hbefore Hmatch Hat).
  - cbv zeta. destruct (bodyMounted body).
    + destruct (bodyScrollTopRef st =? _); split; reflexivity.
    + split; [reflexivity | discriminate].
Qed.

Lemma heldProps_current (p : CalendarProps) : heldProps (type p) p = p.
Proof. destruct p; reflexivity. Qed.

(** X19: when the memoised [scrollIntoView] holds the current mode and
    the month list of the current bounds, as on the first run of the
    effect on mode and bounds after mount: in single and in range mode,
    for valid bounds (the minimum strictly before the maximum in range
    mode), a valid today and valid dates in the value or default, with
    every month of the sequence mounted, the effect never throws and never
    comes away empty-handed: it navigates to the normalised date (in range
    mode the normalised start), which lies within the bounds, and
    publishes the subtitle of the month instance that many months after
    the minimum's month. *)
Theorem typeOrBoundsEffect_navigates (p : CalendarProps) (now : Date)
    (defaultValue : CalendarValueType) (ms : list Date) (monthRefs : MonthRefs)
    (body : Body) (st : State) :
  type p = single \/ type p = range ->
  validDate (minValue p) = true -> validDate (maxValue p) = true ->
  validDate now = true ->
  compareDate (minValue p) (maxValue p) <> 1 ->
  (type p = range -> dayBefore (minValue p) (maxValue p)) ->
  nullish (currentValue p) defaultValue <> VNull ->
  (forall d, nullish (currentValue p) defaultValue = VDate d ->
             validDate d = true) ->
  (forall l d, nullish (currentValue p) defaultValue = VArray l ->
               entry l 0 = Some d -> validDate d = true) ->
  months (minValue p) (maxValue p) = Some ms ->
  (forall i, (i < List.length ms)%nat -> exists m, monthAt monthRefs i = Ok m) ->
  exists (target : Date) (i : nat) (currentMonth : CalendarMonthInstance)
         (st' : State),
    (getInitialDate p now (nullish (currentValue p) defaultValue)
     = Ok (VDate target) \/
     exists endDay,
       getInitialDate p now (nullish (currentValue p) defaultValue)
       = Ok (VArray [Some target; Some endDay])) /\
    inRange (minValue p) (maxValue p) target /\
    Z.of_nat i = monthIndex target - monthIndex (minValue p) /\
    monthAt monthRefs i = Ok currentMonth /\
    typeOrBoundsEffect (type p) ms p now defaultValue monthRefs body st
    = Ok st' /\
    subtitle st' = subtitleRender p (getValue currentMonth) /\
    (bodyMounted body = true ->
     bodyScrollTop st'
     = getScrollTop currentMonth (subtitleRender p (getValue currentMonth))
       - rectTop body + scrollTop body).
Proof.
  intros Htype Hmin Hmax Hnow Hle Hrange Hnull Hdate Harr Hms Hrefs.
  unfold typeOrBoundsEffect. rewrite heldProps_current.
  set (raw := nullish (currentValue p) defaultValue) in *.
  rewrite getInitialDate_cases by assumption.
  destruct Htype as [Ht|Ht]; rewrite Ht.
  - set (x := match raw with VDate d => d | _ => now end).
    assert (Hx : validDate x = true).
    { unfold x. destruct raw as [| |d|l]; auto. }
    set (target := limitDateRange x (minValue p) (maxValue p)).
    assert (Hin : inRange (minValue p) (maxValue p) target)
      by now apply limitDateRange_inRange.
    assert (Hv : validDate target = true) by now apply limitDateRange_valid.
    destruct (scrollToDate_locates p ms monthRefs body target st
                Hmin Hmax Hv Hin Hms Hrefs)
      as (i & currentMonth & st' & Hi & Hat & Hgo & Hsub & Hoff).
    exists target, i, currentMonth, st'.
    split; [now left|]. split; [exact Hin|]. split; [exact Hi|].
    split; [exact Hat|]. split; [|split; assumption].
    cbn [bind]. unfold reset, scrollIntoView. cbn [truthy]. rewrite Ht.
    exact Hgo.
  - specialize (Hrange Ht).
    destruct (range_intervals _ _ Hmin Hmax Hrange) as [Hlo Hhi].
    cbv zeta.
    set (arr := match raw with VArray l => l | _ => [] end).
    set (x := orElse (entry arr 0) now).
    assert (Hx : validDate x = true).
    { unfold x, arr. destruct raw as [| |d|l]; cbn [entry nth_error orElse]; auto.
      destruct (entry l 0) as [d|] eqn:E; cbn [orElse]; eauto. }
    set (target := limitDateRange x (minValue p)
                                  (createPreviousDay (maxValue p))).
    assert (Hin : inRange (minValue p) (maxValue p) target).
    { eapply inRange_widen; [| |apply limitDateRange_inRange; exact Hlo].
      - rewrite compareDate_refl; discriminate.
      - pose proof (createPreviousDay_before (maxValue p)) as Hp.
        apply compareDate_before in Hp. rewrite Hp; discriminate. }
    assert (Hv : validDate target = true).
    { apply limitDateRange_valid; auto. now apply createPreviousDay_valid. }
    destruct (scrollToDate_locates p ms monthRefs body target st
                Hmin Hmax Hv Hin Hms Hrefs)
      as (i & currentMonth & st' & Hi & Hat & Hgo & Hsub & Hoff).
    exists target, i, currentMonth, st'.
    split; [right; eexists; reflexivity|]. split; [exact Hin|].
    split; [exact Hi|]. split; [exact Hat|]. split; [|split; assumption].
    cbn [bind]. unfold reset, scrollIntoView. cbn [truthy]. rewrite Ht.
    exact Hgo.
Qed.

(** An instance: the first run, in single mode, no value and no default,
    today in April 2024 after the bounds: the effect navigates to
    March. *)
Lemma typeOrBoundsEffect_navigates_witness :
  exists (target : Date) (i : nat) (currentMonth : CalendarMonthInstance)
         (st' : State),
    (getInitialDate (quarterProps single VUndefined) (ymd 2024 3 5)
                    (nullish VUndefined VUndefined)
     = Ok (VDate target) \/
     exists endDay,
       getInitialDate (quarterProps single VUndefined) (ymd 2024 3 5)
                      (nullish VUndefined VUndefined)
       = Ok (VArray [Some target; Some endDay])) /\
    inRange (ymd 2024 0 1) (ymd 2024 2 31) target /\
    Z.of_nat i = monthIndex target - monthIndex (ymd 2024 0 1) /\
    monthAt quarterRefs i = Ok currentMonth /\
    typeOrBoundsEffect single quarter (quarterProps single VUndefined)
                       (ymd 2024 3 5) VUndefined quarterRefs
                       (mkBody true 10 800 0) idle
    = Ok st' /\
    subtitle st'
    = subtitleRender (quarterProps single VUndefined) (getValue currentMonth) /\
    (true = true ->
     bodyScrollTop st'
     = getScrollTop currentMonth
         (subtitleRender (quarterProps single VUndefined) (getValue currentMonth))
       - 10 + 0).
Proof.
  apply (typeOrBoundsEffect_navigates (quarterProps single VUndefined)
           (ymd 2024 3 5) VUndefined quarter quarterRefs
           (mkBody true 10 800 0) idle).
  - left; reflexivity.
  - reflexivity.
  - reflexivity.
  - reflexivity.
  - discriminate.
  - intros H; discriminate H.
  - discriminate.
  - intros d H; discriminate H.
  - intros l d H; discriminate H.
  - reflexivity.
  - intros i Hi. cbn in Hi.
    destruct i as [|[|[|i]]]; [eexists; reflexivity .. | lia].
Defined.

(** X20: mounting does not normalise: in single mode with a value (or,
    without a value, a default) that is a date whose month lies outside
    the months of valid bounds, [init] finds no month and leaves the state
    as it is, with no subtitle published. *)
Theorem init_outside_bounds (p : CalendarProps)
    (defaultValue : CalendarValueType) (ms : list Date) (monthRefs : MonthRefs)
    (body : Body) (d : Date) (st : State) :
  type p = single ->
  validDate (minValue p) = true -> validDate (maxValue p) = true ->
  compareDate (minValue p) (maxValue p) <> 1 ->
  nullish (currentValue p) defaultValue = VDate d ->
  0 <= getMonth d <= 11 ->
  monthIndex d < monthIndex (minValue p) \/
  monthIndex (maxValue p) < monthIndex d ->
  months (minValue p) (maxValue p) = Some ms ->
  init p defaultValue ms monthRefs body st = Ok st.
Proof.
  intros Ht Hmin Hmax Hle Hraw Hd Hout Hms.
  unfold init, reset, scrollIntoView. rewrite Hraw. cbn [truthy]. rewrite Ht.
  apply scrollToDate_some_no_match.
  now apply (months_miss (minValue p) (maxValue p)).
Qed.

(** An instance: a default in April 2024 for the first quarter. *)
Lemma init_outside_bounds_witness :
  init (quarterProps single VUndefined) (VDate (ymd 2024 3 5)) quarter
       quarterRefs (mkBody true 10 800 0) idle = Ok idle.
Proof.
  apply (init_outside_bounds (quarterProps single VUndefined)
           (VDate (ymd 2024 3 5)) quarter quarterRefs (mkBody true 10 800 0)
           (ymd 2024 3 5) idle);
    [reflexivity | reflexivity | reflexivity | discriminate | reflexivity
    | cbn; lia | right; cbn; lia | reflexivity].
Defined.

(** X21: for valid bounds with the minimum not after the maximum, no
    anchor occurs twice in the month sequence, so the months rendered
    from it are told apart by their dates. *)
Theorem months_no_duplicates (minValue maxValue : Date) (l : list Date) :
  validDate minValue = true -> validDate maxValue = true ->
  compareDate minValue maxValue <> 1 ->
  months minValue maxValue = Some l ->
  NoDup l.
Proof.
  intros Hmin Hmax Hle E.
  destruct (months_run _ _ Hmin Hmax Hle) as (l' & E' & Hlen & Hnth).
  rewrite E in E'. injection E' as <-.
  apply NoDup_nth_error. intros i j Hi Hij.
  assert (Hj : (j < List.length l)%nat).
  { apply nth_error_Some. rewrite <- Hij. apply nth_error_Some. exact Hi. }
  rewrite (Hnth i Hi), (Hnth j Hj) in Hij. injection Hij as Hy Hm.
  pose proof (Z.div_mod (monthIndex minValue + Z.of_nat i) 12).
  pose proof (Z.div_mod (monthIndex minValue + Z.of_nat j) 12).
  lia.
Qed.

(** An instance: the first quarter of 2024. *)
Lemma months_no_duplicates_witness : NoDup quarter.
Proof.
  apply (months_no_duplicates (ymd 2024 0 1) (ymd 2024 2 31) quarter);
    [reflexivity | reflexivity | discriminate | reflexivity].
Defined.

(* ------------------------------------------------------------------ *)
(** ** Week offset and children *)

(** X22: the week offset of a first day of week that is not negative lies
    between 0 and 6 and is its residue modulo 7, so that 7 gives 0 like a
    missing value; a negative one is not brought into that range: its
    offset lies between -6 and 0. *)
Theorem dayOffset_range (n : Z) :
  (0 <= n -> 0 <= dayOffset (Some n) <= 6 /\ dayOffset (Some n) = n mod 7) /\
  (n < 0 -> -6 <= dayOffset (Some n) <= 0 /\
            dayOffset (Some n) = - ((- n) mod 7)) /\
  dayOffset (Some 7) = dayOffset None.
Proof.
  unfold dayOffset. split; [|split; [|reflexivity]].
  - intros Hn. destruct (Z.eqb_spec n 0) as [->|Hne]; [cbn; lia|].
    rewrite Z.rem_mod_nonneg by lia.
    pose proof (Z.mod_pos_bound n 7). lia.
  - intros Hn. destruct (Z.eqb_spec n 0) as [->|Hne]; [lia|].
    assert (E : Z.rem n 7 = - ((- n) mod 7)).
    { rewrite <- (Z.opp_involutive n) at 1.
      rewrite Z.rem_opp_l by lia. now rewrite Z.rem_mod_nonneg by lia. }
    rewrite E. pose proof (Z.mod_pos_bound (- n) 7). lia.
Qed.

Lemma useCalendarChildren_others (children : list Child) :
  forall acc : CalendarChildren,
    (forall x c, In x children -> x <> ChildElement CalendarFooter c) ->
    fold_left
      (fun __children__ child =>
         match child with
         | ChildElement CalendarFooter _ => mkChildren (Some child)
         | _ => __children__
         end)
      children acc = acc.
Proof.
  induction children as [|x children IH]; intros acc Hno; cbn [fold_left];
    [reflexivity|].
  rewrite IH by (intros y c Hy; apply Hno; now right).
  destruct x as [[|name] c|n]; try reflexivity.
  exfalso. apply (Hno _ c (or_introl eq_refl)). reflexivity.
Qed.

(** X23: of the children, the footer kept is the last element that is a
    calendar footer, whatever comes before it; when no child is one, no
    footer is kept. *)
Theorem useCalendarChildren_last_footer (before after : list Child)
    (content : ReactNode) :
  (forall x c, In x after -> x <> ChildElement CalendarFooter c) ->
  footer (useCalendarChildren
            (before ++ ChildElement CalendarFooter content :: after))
  = Some (ChildElement CalendarFooter content) /\
  footer (useCalendarChildren after) = None.
Proof.
  intros Hno. unfold useCalendarChildren. split.
  - rewrite fold_left_app. cbn [fold_left].
    rewrite useCalendarChildren_others by assumption. reflexivity.
  - rewrite useCalendarChildren_others by assumption. reflexivity.
Qed.

(** An instance: two footers around a text node, another component
    last. *)
Lemma useCalendarChildren_last_footer_witness :
  footer (useCalendarChildren
            ([ChildElement CalendarFooter (NodeText "first");
              ChildNode (NodeText "text")]
             ++ ChildElement CalendarFooter (NodeText "second")
             :: [ChildElement (OtherComponent "View") NodeUndefined]))
  = Some (ChildElement CalendarFooter (NodeText "second")) /\
  footer (useCalendarChildren
            [ChildElement (OtherComponent "View") NodeUndefined]) = None.
Proof.
  apply (useCalendarChildren_last_footer
           [ChildElement CalendarFooter (NodeText "first");
            ChildNode (NodeText "text")]
           [ChildElement (OtherComponent "View") NodeUndefined]
           (NodeText "second")).
  intros x c [<-|[]]. discriminate.
Defined.

(** An instance: a first day of week of 10 gives the offset 3. *)
Lemma dayOffset_range_witness :
  0 <= dayOffset (Some 10) <= 6 /\ dayOffset (Some 10) = 10 mod 7.
Proof. apply (proj1 (dayOffset_range 10)). lia. Defined.
